(** * RandomProbePointSet: the 3/4-point bed compensation store

    A shallow embedding of [src/Movement/BedProbing/RandomProbePointSet.cpp].

    - C++ [float] is IEEE-754 binary32 and the [double] literals of the source
      ([0.0], [1.0]) are binary64; both are modelled with the executable
      [spec_float] operations of the standard library, instantiated at the two
      formats, with the implicit conversions of C++ written out.
    - The four member arrays are lists indexed with stdpp's lookup and insert;
      the class is a record and every member function is a function on it.
    - Every arithmetic operation rounds once, to the format of its C++ type
      (no fused multiply-add, no excess precision).
    - The text written to the reply buffer and the platform message are
      returned as data. *)

From Stdlib Require Import ZArith Bool Lia.
From Stdlib Require Import Floats.SpecFloat.
From stdpp Require Import base list.

#[local] Open Scope Z_scope.

(** ** Floating point *)

(** C++ [float]: binary32, round to nearest even. *)
Module F32.
Definition prec : Z := 24.
Definition emax : Z := 128.

Definition add : spec_float -> spec_float -> spec_float := SFadd prec emax.
Definition sub : spec_float -> spec_float -> spec_float := SFsub prec emax.
Definition mul : spec_float -> spec_float -> spec_float := SFmul prec emax.
Definition div : spec_float -> spec_float -> spec_float := SFdiv prec emax.
Definition sqrt : spec_float -> spec_float := SFsqrt prec emax.
Definition opp : spec_float -> spec_float := SFopp.

(** [a < b], [a <= b], [a > b], [a >= b]: all false when an operand is NaN. *)
Definition ltb : spec_float -> spec_float -> bool := SFltb.
Definition leb : spec_float -> spec_float -> bool := SFleb.
Definition gtb (a b : spec_float) : bool := SFltb b a.
Definition geb (a b : spec_float) : bool := SFleb b a.

Definition zero : spec_float := S754_zero false.

(** [m * 2^e] rounded to the format; [of_Z] is the conversion of an integer. *)
Definition of_scaled (m e : Z) : spec_float := binary_normalize prec emax m e false.
Definition of_Z (n : Z) : spec_float := of_scaled n 0.

(** Conversion of a [double] to [float] (rounds). *)
Definition of_double (d : spec_float) : spec_float := SFldexp prec emax d 0.

Definition is_nan (a : spec_float) : bool :=
  match a with S754_nan => true | _ => false end.
End F32.

(** C++ [double]: binary64. *)
Module F64.
Definition prec : Z := 53.
Definition emax : Z := 1024.

Definition add : spec_float -> spec_float -> spec_float := SFadd prec emax.
Definition sub : spec_float -> spec_float -> spec_float := SFsub prec emax.
Definition mul : spec_float -> spec_float -> spec_float := SFmul prec emax.
Definition div : spec_float -> spec_float -> spec_float := SFdiv prec emax.

Definition zero : spec_float := S754_zero false.
Definition one : spec_float := binary_normalize prec emax 1 0 false.

(** Promotion of a [float] to [double] (exact; renormalises the mantissa). *)
Definition of_float (f : spec_float) : spec_float := SFldexp prec emax f 0.
End F64.

#[global] Instance spec_float_inhabited : Inhabited spec_float := populate F32.zero.

(** ** Declarations of the header *)

(** Modelled from the spec: the enumeration of status bits lives in
    RandomProbePointSet.h, which is not among the sources.  The spec lists the
    four independent bit flags [xySet], [zSet], [xyCorrected], [probeError]
    and the empty status [unset]; they are given the successive bits 0 to 3. *)
Definition unset : Z := 0.
Definition xySet : Z := 1.
Definition zSet : Z := 2.
Definition xyCorrected : Z := 4.
Definition probeError : Z := 8.

(** A value stored into a [uint8_t] array element. *)
Definition to_uint8 (v : Z) : Z := v mod 2 ^ 8.

(** Modelled from the spec: the member declarations are in the missing header;
    the element types are those the source file uses them at. *)
Record RandomProbePointSet : Type := mkRandomProbePointSet {
  xBedProbePoints : list spec_float;
  yBedProbePoints : list spec_float;
  zBedProbePoints : list spec_float;
  probePointSet : list Z;
  numBedCompensationPoints : nat;
  aX : spec_float;
  aY : spec_float;
  aC : spec_float;
  xRectangle : spec_float;
  yRectangle : spec_float
}.

Definition with_x (v : list spec_float) (s : RandomProbePointSet) :=
  mkRandomProbePointSet v (yBedProbePoints s) (zBedProbePoints s) (probePointSet s)
    (numBedCompensationPoints s) (aX s) (aY s) (aC s) (xRectangle s) (yRectangle s).
Definition with_y (v : list spec_float) (s : RandomProbePointSet) :=
  mkRandomProbePointSet (xBedProbePoints s) v (zBedProbePoints s) (probePointSet s)
    (numBedCompensationPoints s) (aX s) (aY s) (aC s) (xRectangle s) (yRectangle s).
Definition with_z (v : list spec_float) (s : RandomProbePointSet) :=
  mkRandomProbePointSet (xBedProbePoints s) (yBedProbePoints s) v (probePointSet s)
    (numBedCompensationPoints s) (aX s) (aY s) (aC s) (xRectangle s) (yRectangle s).
Definition with_flags (v : list Z) (s : RandomProbePointSet) :=
  mkRandomProbePointSet (xBedProbePoints s) (yBedProbePoints s) (zBedProbePoints s) v
    (numBedCompensationPoints s) (aX s) (aY s) (aC s) (xRectangle s) (yRectangle s).
Definition with_num (v : nat) (s : RandomProbePointSet) :=
  mkRandomProbePointSet (xBedProbePoints s) (yBedProbePoints s) (zBedProbePoints s)
    (probePointSet s) v (aX s) (aY s) (aC s) (xRectangle s) (yRectangle s).
Definition with_plane (a b c : spec_float) (s : RandomProbePointSet) :=
  mkRandomProbePointSet (xBedProbePoints s) (yBedProbePoints s) (zBedProbePoints s)
    (probePointSet s) (numBedCompensationPoints s) a b c (xRectangle s) (yRectangle s).
Definition with_rectangle (xr yr : spec_float) (s : RandomProbePointSet) :=
  mkRandomProbePointSet (xBedProbePoints s) (yBedProbePoints s) (zBedProbePoints s)
    (probePointSet s) (numBedCompensationPoints s) (aX s) (aY s) (aC s) xr yr.

(** [probePointSet[i] |= flag] and [probePointSet[i] &= ~flag]. *)
Definition or_flag (flag : Z) (i : nat) (s : RandomProbePointSet) : RandomProbePointSet :=
  with_flags (<[i := to_uint8 (Z.lor (probePointSet s !!! i) flag)]> (probePointSet s)) s.
Definition clear_flag (flag : Z) (i : nat) (s : RandomProbePointSet) : RandomProbePointSet :=
  with_flags (<[i := to_uint8 (Z.land (probePointSet s !!! i) (Z.lnot flag))]> (probePointSet s)) s.

(** [for (size_t i = 0; i < n; ++i) body(i)], for a body that does not leave the loop. *)
Fixpoint for_loop {S : Type} (n : nat) (body : nat -> S -> S) (s : S) : S :=
  match n with
  | O => s
  | Datatypes.S n' => body n' (for_loop n' body s)
  end.

(** Modelled from the spec: [fsquare] and [max<float>] are helpers of the
    firmware's maths header, which is not among the sources; the spec reads
    them as the square and the larger of two values. *)
Definition fsquare (a : spec_float) : spec_float := F32.mul a a.
Definition max_float (a b : spec_float) : spec_float := if F32.ltb a b then b else a.

(** ** What the member functions write to their callers *)

(** The text left in the [reply] buffer by [SetProbedBedEquation], with the
    values its format string prints. *)
Inductive FitReply : Type :=
| ClockwiseOrderReply (lastPoint : Z)
| UnsupportedCountReply (numPoints : nat)
| BedEquationFitsReply (points : list (spec_float * spec_float * spec_float)).

(** Result of [SetProbedBedEquation]: the returned [bool], the reply, whether
    the deprecation warning went to the platform, and the object afterwards. *)
Record FitResult : Type := mkFitResult {
  fit_error : bool;
  fit_reply : FitReply;
  fit_warning : bool;
  fit_store : RandomProbePointSet
}.

(** One item of the list printed by [ReportProbeHeights]. *)
Inductive HeightEntry : Type :=
| NotSetEntry
| ProbingFailedEntry
| HeightValue (z : spec_float).

Record HeightsReport : Type := mkHeightsReport {
  report_entries : list HeightEntry;
  report_mean : spec_float;
  report_deviation : spec_float
}.

(** The three exits of the [switch] in [GetInterpolatedHeightError]. *)
Inductive HeightCase : Type := CaseZeroOrDefault | CasePlane | CaseBilinear.

Definition height_case (n : nat) : HeightCase :=
  match n with
  | 3%nat => CasePlane
  | 4%nat => CaseBilinear
  | _ => CaseZeroOrDefault
  end.

(** [(status & flag) != 0] *)
Definition has_flag (status flag : Z) : bool := negb (Z.land status flag =? 0).

(** [(probePointSet[i] & mask) != expected] *)
Definition flags_differ (s : RandomProbePointSet) (i : nat) (mask expected : Z) : bool :=
  negb (Z.land (probePointSet s !!! i) mask =? expected).

(** ** The member functions *)

Section ProbePointSet.

(** Modelled from the spec: the capacity [MaxProbePoints] is a constant of the
    firmware configuration, which is not among the sources. *)
Variable MaxProbePoints : nat.

(** An object of the class: the four arrays have [MaxProbePoints] elements and
    the statuses are bytes.  The source reads elements 0 to 3 of the coordinate
    arrays whatever the capacity, so the capacity is at least 4. *)
Definition wf (s : RandomProbePointSet) : Prop :=
  (4 <= MaxProbePoints)%nat /\
  length (xBedProbePoints s) = MaxProbePoints /\
  length (yBedProbePoints s) = MaxProbePoints /\
  length (zBedProbePoints s) = MaxProbePoints /\
  length (probePointSet s) = MaxProbePoints /\
  Forall (fun f => 0 <= f < 2 ^ 8) (probePointSet s).

(** The constructor, run on the storage [mem] of the new object: the members
    it does not initialise keep whatever [mem] holds. *)
Definition construct (mem : RandomProbePointSet) : RandomProbePointSet :=
  for_loop MaxProbePoints
    (fun point s =>
       with_z (<[point := F32.of_double F64.zero]> (zBedProbePoints s))
         (with_flags (<[point := unset]> (probePointSet s)) s))
    (with_num 0 mem).

(** The setters index the arrays unchecked: an index outside the arrays is
    undefined behaviour in the source, [None] here. *)
Definition SetXYBedProbePoint (index : nat) (x y : spec_float)
    (s : RandomProbePointSet) : option RandomProbePointSet :=
  if (index <? MaxProbePoints)%nat then
    let s1 := with_x (<[index := x]> (xBedProbePoints s)) s in
    let s2 := with_y (<[index := y]> (yBedProbePoints s1)) s1 in
    Some (or_flag xySet index s2)
  else None.

Definition SetZBedProbePoint (index : nat) (z : spec_float)
    (wasXyCorrected wasError : bool)
    (s : RandomProbePointSet) : option RandomProbePointSet :=
  if (index <? MaxProbePoints)%nat then
    let s1 := with_z (<[index := z]> (zBedProbePoints s)) s in
    let s2 := or_flag zSet index s1 in
    let s3 := if wasXyCorrected then or_flag xyCorrected index s2
              else clear_flag xyCorrected index s2 in
    Some (if wasError then or_flag probeError index s3
          else clear_flag probeError index s3)
  else None.

(** The loop of [NumberOfProbePoints] from index [i], with [remaining]
    iterations left before [i] reaches [MaxProbePoints]. *)
Fixpoint NumberOfProbePoints_from (s : RandomProbePointSet) (remaining i : nat) : nat :=
  match remaining with
  | O => MaxProbePoints
  | S remaining' =>
      if flags_differ s i (Z.lor xySet zSet) (Z.lor xySet zSet) then i
      else NumberOfProbePoints_from s remaining' (S i)
  end.

Definition NumberOfProbePoints (s : RandomProbePointSet) : nat :=
  NumberOfProbePoints_from s MaxProbePoints 0.

Definition ClearProbeHeights (s : RandomProbePointSet) : RandomProbePointSet :=
  for_loop MaxProbePoints (fun i s => clear_flag zSet i s) s.

Definition GoodProbePointOrdering (numPoints : nat) (s : RandomProbePointSet) : bool :=
  if (2 <=? numPoints)%nat
     && F32.leb (yBedProbePoints s !!! 1%nat) (yBedProbePoints s !!! 0%nat) then false
  else if (3 <=? numPoints)%nat
     && F32.leb (xBedProbePoints s !!! 2%nat) (xBedProbePoints s !!! 1%nat) then false
  else if (4 <=? numPoints)%nat
     && F32.geb (yBedProbePoints s !!! 3%nat) (yBedProbePoints s !!! 2%nat) then false
  else if (4 <=? numPoints)%nat
     && F32.geb (xBedProbePoints s !!! 0%nat) (xBedProbePoints s !!! 3%nat) then false
  else true.

(** The points listed by the success message: [[x, y, z]] for each index below [numPoints]. *)
Definition fitted_points (numPoints : nat) (s : RandomProbePointSet)
    : list (spec_float * spec_float * spec_float) :=
  (fun point => (xBedProbePoints s !!! point, yBedProbePoints s !!! point,
                 zBedProbePoints s !!! point)) <$> seq 0 numPoints.

(** The [switch] of [SetProbedBedEquation]: the object after [case 3] or
    [case 4], [None] for the [default] case, which returns. *)
Definition fit_coefficients (numPoints : nat) (s : RandomProbePointSet)
    : option RandomProbePointSet :=
  match numPoints with
  | 3%nat =>
      let x10 := F32.sub (xBedProbePoints s !!! 1%nat) (xBedProbePoints s !!! 0%nat) in
      let y10 := F32.sub (yBedProbePoints s !!! 1%nat) (yBedProbePoints s !!! 0%nat) in
      let z10 := F32.sub (zBedProbePoints s !!! 1%nat) (zBedProbePoints s !!! 0%nat) in
      let x20 := F32.sub (xBedProbePoints s !!! 2%nat) (xBedProbePoints s !!! 0%nat) in
      let y20 := F32.sub (yBedProbePoints s !!! 2%nat) (yBedProbePoints s !!! 0%nat) in
      let z20 := F32.sub (zBedProbePoints s !!! 2%nat) (zBedProbePoints s !!! 0%nat) in
      let a := F32.sub (F32.mul y10 z20) (F32.mul z10 y20) in
      let b := F32.sub (F32.mul z10 x20) (F32.mul x10 z20) in
      let c := F32.sub (F32.mul x10 y20) (F32.mul y10 x20) in
      let d := F32.opp
                 (F32.add
                    (F32.add (F32.mul (xBedProbePoints s !!! 1%nat) a)
                             (F32.mul (yBedProbePoints s !!! 1%nat) b))
                    (F32.mul (zBedProbePoints s !!! 1%nat) c)) in
      Some (with_plane (F32.div (F32.opp a) c) (F32.div (F32.opp b) c)
              (F32.div (F32.opp d) c) s)
  | 4%nat =>
      let xr := F32.of_double
                  (F64.div F64.one
                     (F64.of_float (F32.sub (xBedProbePoints s !!! 3%nat)
                                            (xBedProbePoints s !!! 0%nat)))) in
      let yr := F32.of_double
                  (F64.div F64.one
                     (F64.of_float (F32.sub (yBedProbePoints s !!! 1%nat)
                                            (yBedProbePoints s !!! 0%nat)))) in
      Some (with_rectangle xr yr s)
  | _ => None
  end.

(** Set the bed transform, returning true if error. *)
Definition SetProbedBedEquation (numPoints : nat) (s : RandomProbePointSet) : FitResult :=
  if negb (GoodProbePointOrdering numPoints s) then
    mkFitResult true
      (ClockwiseOrderReply ((Z.min (Z.of_nat numPoints mod 2 ^ 32) 4 - 1) mod 2 ^ 32))
      false s
  else
    match fit_coefficients numPoints s with
    | None => mkFitResult true (UnsupportedCountReply numPoints) false s
    | Some s1 =>
        let s2 := with_num numPoints s1 in
        mkFitResult false (BedEquationFitsReply (fitted_points numPoints s2)) true s2
    end.

Definition SecondDegreeTransformZ (x y : spec_float) (s : RandomProbePointSet) : spec_float :=
  let x := F32.mul (F32.sub x (xBedProbePoints s !!! 0%nat)) (xRectangle s) in
  let y := F32.mul (F32.sub y (yBedProbePoints s !!! 0%nat)) (yRectangle s) in
  let xd := F64.of_float x in
  let yd := F64.of_float y in
  F32.of_double
    (F64.add
       (F64.add
          (F64.add
             (F64.mul (F64.mul (F64.sub F64.one xd) (F64.sub F64.one yd))
                      (F64.of_float (zBedProbePoints s !!! 0%nat)))
             (F64.mul (F64.mul xd (F64.sub F64.one yd))
                      (F64.of_float (zBedProbePoints s !!! 3%nat))))
          (F64.mul (F64.mul (F64.sub F64.one xd) yd)
                   (F64.of_float (zBedProbePoints s !!! 1%nat))))
       (F64.of_float (F32.mul (F32.mul x y) (zBedProbePoints s !!! 2%nat)))).

(** Compute the interpolated height error at the specified point. *)
Definition GetInterpolatedHeightError (x y : spec_float) (s : RandomProbePointSet) : spec_float :=
  match height_case (numBedCompensationPoints s) with
  | CaseZeroOrDefault => F32.of_double F64.zero
  | CasePlane => F32.add (F32.add (F32.mul (aX s) x) (F32.mul (aY s) y)) (aC s)
  | CaseBilinear => SecondDegreeTransformZ x y s
  end.

(** The loop of [GoodProbePoints] from index [i]. *)
Fixpoint GoodProbePoints_from (s : RandomProbePointSet) (remaining i : nat) : bool :=
  match remaining with
  | O => true
  | S remaining' =>
      if flags_differ s i (Z.lor (Z.lor xySet zSet) probeError) (Z.lor xySet zSet) then false
      else GoodProbePoints_from s remaining' (S i)
  end.

Definition GoodProbePoints (numPoints : nat) (s : RandomProbePointSet) : bool :=
  GoodProbePoints_from s numPoints 0.

(** One iteration of the loop of [ReportProbeHeights] on the printed entries,
    [sum] and [sumOfSquares]. *)
Definition report_step (s : RandomProbePointSet) (i : nat)
    (acc : list HeightEntry * spec_float * spec_float)
    : list HeightEntry * spec_float * spec_float :=
  let '(out, sum, sumOfSquares) := acc in
  if flags_differ s i (Z.lor xySet zSet) (Z.lor xySet zSet) then
    (out ++ [NotSetEntry], sum, sumOfSquares)
  else if has_flag (probePointSet s !!! i) probeError then
    (out ++ [ProbingFailedEntry], sum, sumOfSquares)
  else
    (out ++ [HeightValue (zBedProbePoints s !!! i)],
     F32.add sum (zBedProbePoints s !!! i),
     F32.add sumOfSquares (fsquare (zBedProbePoints s !!! i))).

(** Print out the probe heights and any errors. *)
Definition ReportProbeHeights (numPoints : nat) (s : RandomProbePointSet) : HeightsReport :=
  let '(out, sum, sumOfSquares) :=
    for_loop numPoints (report_step s)
      ([], F32.of_double F64.zero, F32.of_double F64.zero) in
  let count := F32.of_Z (Z.of_nat numPoints) in
  let mean := F32.div sum count in
  let stdDev :=
    F32.sqrt (max_float (F32.sub (F32.div sumOfSquares count) (fsquare mean))
                        (F32.of_double F64.zero)) in
  mkHeightsReport out mean stdDev.

(** The states of an object: constructed, then driven through its non-const
    member functions with the indices in range. *)
Inductive reachable : RandomProbePointSet -> Prop :=
| reach_construct mem :
    wf mem -> reachable (construct mem)
| reach_SetXY s index x y s' :
    reachable s -> SetXYBedProbePoint index x y s = Some s' -> reachable s'
| reach_SetZ s index z wasXyCorrected wasError s' :
    reachable s -> SetZBedProbePoint index z wasXyCorrected wasError s = Some s' ->
    reachable s'
| reach_Clear s :
    reachable s -> reachable (ClearProbeHeights s)
| reach_Fit s numPoints :
    reachable s -> reachable (fit_store (SetProbedBedEquation numPoints s)).

(** ** Notions of the specification *)

(** A record is fully set when it has both [xySet] and [zSet]. *)
Definition fully_set (status : Z) : bool := has_flag status xySet && has_flag status zSet.

(** A record holds a valid height: fully set and without [probeError]. *)
Definition valid_record (status : Z) : bool := fully_set status && negb (has_flag status probeError).

(** Length of the longest prefix of [l] whose elements all satisfy [p]. *)
Fixpoint prefix_length {A : Type} (p : A -> bool) (l : list A) : nat :=
  match l with
  | [] => O
  | a :: l' => if p a then S (prefix_length p l') else O
  end.

(** The caller records point [index]: its coordinates, then its height. *)
Definition record_point (index : nat) (x y z : spec_float) (wasXyCorrected wasError : bool)
    (s : RandomProbePointSet) : option RandomProbePointSet :=
  s1 ← SetXYBedProbePoint index x y s;
  SetZBedProbePoint index z wasXyCorrected wasError s1.

(** Record [index] of the store holds the point [(x, y, z)]. *)
Definition point_is (s : RandomProbePointSet) (index : nat) (x y z : spec_float) : Prop :=
  xBedProbePoints s !!! index = x /\
  yBedProbePoints s !!! index = y /\
  zBedProbePoints s !!! index = z.

(** The valid heights among the first [numPoints] records, in index order. *)
Definition valid_heights (numPoints : nat) (s : RandomProbePointSet) : list spec_float :=
  omap (fun i => if valid_record (probePointSet s !!! i)
                 then Some (zBedProbePoints s !!! i) else None)
       (seq 0 numPoints).

(** Mean and population standard deviation of a list of heights, the
    deviation as [sqrt (max 0 (E[z^2] - E[z]^2))], in [float] arithmetic. *)
Definition float_sum (l : list spec_float) : spec_float :=
  foldl F32.add (F32.of_double F64.zero) l.
Definition mean_of (l : list spec_float) : spec_float :=
  F32.div (float_sum l) (F32.of_Z (Z.of_nat (length l))).
Definition deviation_of (l : list spec_float) : spec_float :=
  F32.sqrt
    (max_float
       (F32.sub (F32.div (float_sum (fsquare <$> l)) (F32.of_Z (Z.of_nat (length l))))
                (fsquare (mean_of l)))
       (F32.of_double F64.zero)).

(** The ordering rules as the specification lists them. *)
Definition ordering_rules (numPoints : nat) (s : RandomProbePointSet) : Prop :=
  ((2 <= numPoints)%nat ->
   F32.gtb (yBedProbePoints s !!! 1%nat) (yBedProbePoints s !!! 0%nat) = true) /\
  ((3 <= numPoints)%nat ->
   F32.gtb (xBedProbePoints s !!! 2%nat) (xBedProbePoints s !!! 1%nat) = true) /\
  ((4 <= numPoints)%nat ->
   F32.ltb (yBedProbePoints s !!! 3%nat) (yBedProbePoints s !!! 2%nat) = true) /\
  ((4 <= numPoints)%nat ->
   F32.ltb (xBedProbePoints s !!! 0%nat) (xBedProbePoints s !!! 3%nat) = true).

(** None of the coordinates that the rules applicable to [numPoints] compare is a NaN. *)
Definition compared_not_nan (numPoints : nat) (s : RandomProbePointSet) : Prop :=
  ((2 <= numPoints)%nat ->
   F32.is_nan (yBedProbePoints s !!! 1%nat) = false /\
   F32.is_nan (yBedProbePoints s !!! 0%nat) = false) /\
  ((3 <= numPoints)%nat ->
   F32.is_nan (xBedProbePoints s !!! 2%nat) = false /\
   F32.is_nan (xBedProbePoints s !!! 1%nat) = false) /\
  ((4 <= numPoints)%nat ->
   F32.is_nan (yBedProbePoints s !!! 3%nat) = false /\
   F32.is_nan (yBedProbePoints s !!! 2%nat) = false /\
   F32.is_nan (xBedProbePoints s !!! 0%nat) = false /\
   F32.is_nan (xBedProbePoints s !!! 3%nat) = false).

(** The status of record [index] after [SetZBedProbePoint], from the status before. *)
Definition status_after_SetZ (wasXyCorrected wasError : bool) (f : Z) : Z :=
  let f1 := to_uint8 (Z.lor f zSet) in
  let f2 := if wasXyCorrected then to_uint8 (Z.lor f1 xyCorrected)
            else to_uint8 (Z.land f1 (Z.lnot xyCorrected)) in
  if wasError then to_uint8 (Z.lor f2 probeError)
  else to_uint8 (Z.land f2 (Z.lnot probeError)).

(** The item [ReportProbeHeights] prints for record [i]. *)
Definition height_entry (s : RandomProbePointSet) (i : nat) : HeightEntry :=
  if negb (fully_set (probePointSet s !!! i)) then NotSetEntry
  else if has_flag (probePointSet s !!! i) probeError then ProbingFailedEntry
  else HeightValue (zBedProbePoints s !!! i).

(** ** Example objects, of capacity 4 *)

(** A new object whose storage was all zero. *)
Definition blank_store : RandomProbePointSet :=
  mkRandomProbePointSet
    (replicate 4 F32.zero) (replicate 4 F32.zero) (replicate 4 F32.zero)
    (replicate 4 unset) 0 F32.zero F32.zero F32.zero F32.zero F32.zero.

(** [blank_store] after [SetXYBedProbePoint(1, 0, NaN)]. *)
Definition nan_store : RandomProbePointSet :=
  mkRandomProbePointSet
    (replicate 4 F32.zero) [F32.zero; S754_nan; F32.zero; F32.zero] (replicate 4 F32.zero)
    [unset; xySet; unset; unset] 0 F32.zero F32.zero F32.zero F32.zero F32.zero.

(** [blank_store] after recording the heights 1, 2, 3 at (0,0), (0,1), (1,1);
    record 3 is not set. *)
Definition heights_store : RandomProbePointSet :=
  mkRandomProbePointSet
    [F32.of_Z 0; F32.of_Z 0; F32.of_Z 1; F32.zero]
    [F32.of_Z 0; F32.of_Z 1; F32.of_Z 1; F32.zero]
    [F32.of_Z 1; F32.of_Z 2; F32.of_Z 3; F32.zero]
    [3; 3; 3; 0] 0 F32.zero F32.zero F32.zero F32.zero F32.zero.

(** Storage in which the coordinates of the four corners of the unit square
    are already in place, clockwise from the origin. *)
Definition corners_store : RandomProbePointSet :=
  mkRandomProbePointSet
    [F32.of_Z 0; F32.of_Z 0; F32.of_Z 1; F32.of_Z 1]
    [F32.of_Z 0; F32.of_Z 1; F32.of_Z 1; F32.of_Z 0]
    (replicate 4 F32.zero)
    (replicate 4 unset) 0 F32.zero F32.zero F32.zero F32.zero F32.zero.

(** ** The raw report *)

(** What [DebugPrint] writes to the debug channel: the heights, the mean and
    the deviation. *)
Record DebugReport : Type := mkDebugReport {
  debug_heights : list spec_float;
  debug_mean : spec_float;
  debug_deviation : spec_float
}.

(** One iteration of the loop of [DebugPrint]. *)
Definition debug_step (s : RandomProbePointSet) (i : nat)
    (acc : list spec_float * spec_float * spec_float)
    : list spec_float * spec_float * spec_float :=
  let '(out, sum, sumOfSquares) := acc in
  (out ++ [zBedProbePoints s !!! i],
   F32.add sum (zBedProbePoints s !!! i),
   F32.add sumOfSquares (fsquare (zBedProbePoints s !!! i))).

Definition DebugPrint (numPoints : nat) (s : RandomProbePointSet) : DebugReport :=
  let '(out, sum, sumOfSquares) :=
    for_loop numPoints (debug_step s)
      ([], F32.of_double F64.zero, F32.of_double F64.zero) in
  let count := F32.of_Z (Z.of_nat numPoints) in
  let mean := F32.div sum count in
  mkDebugReport out mean
    (F32.sqrt (F32.sub (F32.div sumOfSquares count) (fsquare mean))).

(** ** Further notions *)

(** The heights of the first [numPoints] records, whatever their status. *)
Definition all_heights (numPoints : nat) (s : RandomProbePointSet) : list spec_float :=
  (fun i => zBedProbePoints s !!! i) <$> seq 0 numPoints.

(** The divisor [c] of the plane fit. *)
Definition plane_divisor (s : RandomProbePointSet) : spec_float :=
  let x10 := F32.sub (xBedProbePoints s !!! 1%nat) (xBedProbePoints s !!! 0%nat) in
  let y10 := F32.sub (yBedProbePoints s !!! 1%nat) (yBedProbePoints s !!! 0%nat) in
  let x20 := F32.sub (xBedProbePoints s !!! 2%nat) (xBedProbePoints s !!! 0%nat) in
  let y20 := F32.sub (yBedProbePoints s !!! 2%nat) (yBedProbePoints s !!! 0%nat) in
  F32.sub (F32.mul x10 y20) (F32.mul y10 x20).

Definition float_is_zero (a : spec_float) : bool :=
  match a with S754_zero _ => true | _ => false end.

(** Neither an infinity nor a NaN. *)
Definition float_is_finite (a : spec_float) : bool :=
  match a with S754_zero _ | S754_finite _ _ _ => true | _ => false end.


(** The fitted model of two objects is the same. *)
Definition same_model (s s' : RandomProbePointSet) : Prop :=
  numBedCompensationPoints s' = numBedCompensationPoints s /\
  aX s' = aX s /\ aY s' = aY s /\ aC s' = aC s /\
  xRectangle s' = xRectangle s /\ yRectangle s' = yRectangle s.

(** Three points on the diagonal, recorded in a new object. *)
Definition diagonal_store : RandomProbePointSet :=
  mkRandomProbePointSet
    [F32.of_Z 0; F32.of_Z 1; F32.of_Z 2; F32.zero]
    [F32.of_Z 0; F32.of_Z 1; F32.of_Z 2; F32.zero]
    [F32.of_Z 0; F32.of_Z 1; F32.of_Z 3; F32.zero]
    [3; 3; 3; 0] 0 F32.zero F32.zero F32.zero F32.zero F32.zero.

(** ** Status bits *)

Lemma land_single_bit (f k : Z) :
  0 <= k -> Z.land f (2 ^ k) = if Z.testbit f k then 2 ^ k else 0.
Proof.
  intros Hk. apply Z.bits_inj'. intros n Hn.
  rewrite Z.land_spec, Z.pow2_bits_eqb by lia.
  destruct (Z.eqb_spec k n) as [->|Hne].
  - destruct (Z.testbit f n); simpl.
    + rewrite Z.pow2_bits_true; [reflexivity | lia].
    + now rewrite Z.bits_0.
  - rewrite andb_false_r.
    destruct (Z.testbit f k).
    + rewrite Z.pow2_bits_false; [reflexivity | lia].
    + now rewrite Z.bits_0.
Qed.

Lemma has_flag_testbit (f k : Z) :
  0 <= k -> has_flag f (2 ^ k) = Z.testbit f k.
Proof.
  intros Hk. unfold has_flag. rewrite land_single_bit by lia.
  destruct (Z.testbit f k); [|reflexivity].
  destruct (Z.eqb_spec (2 ^ k) 0); [|reflexivity].
  assert (0 < 2 ^ k) by (apply Z.pow_pos_nonneg; lia). lia.
Qed.

Lemma has_xySet f : has_flag f xySet = Z.testbit f 0.
Proof. exact (has_flag_testbit f 0 ltac:(lia)). Qed.
Lemma has_zSet f : has_flag f zSet = Z.testbit f 1.
Proof. exact (has_flag_testbit f 1 ltac:(lia)). Qed.
Lemma has_xyCorrected f : has_flag f xyCorrected = Z.testbit f 2.
Proof. exact (has_flag_testbit f 2 ltac:(lia)). Qed.
Lemma has_probeError f : has_flag f probeError = Z.testbit f 3.
Proof. exact (has_flag_testbit f 3 ltac:(lia)). Qed.

Lemma testbit_to_uint8 (v k : Z) :
  0 <= k < 8 -> Z.testbit (to_uint8 v) k = Z.testbit v k.
Proof. intros Hk. unfold to_uint8. apply Z.mod_pow2_bits_low. lia. Qed.

Lemma to_uint8_range (v : Z) : 0 <= to_uint8 v < 2 ^ 8.
Proof. unfold to_uint8. apply Z.mod_pos_bound. lia. Qed.

Lemma byte_high_bits (f n : Z) : 0 <= f < 2 ^ 8 -> 8 <= n -> Z.testbit f n = false.
Proof.
  intros [Hlo Hhi] Hn.
  destruct (Z.eq_dec f 0) as [->|Hnz]; [apply Z.bits_0|].
  apply Z.bits_above_log2; [lia|].
  assert (Z.log2 f < 8) by (apply Z.log2_lt_pow2; lia). lia.
Qed.

(** [status &= ~flag] needs no truncation when [status] is a byte. *)
Lemma to_uint8_clear (f flag : Z) :
  0 <= f < 2 ^ 8 -> to_uint8 (Z.land f (Z.lnot flag)) = Z.land f (Z.lnot flag).
Proof.
  intros Hf. apply Z.bits_inj'. intros n Hn.
  destruct (Z_lt_le_dec n 8) as [Hlt|Hge].
  - apply testbit_to_uint8. lia.
  - unfold to_uint8. rewrite Z.mod_pow2_bits_high by lia.
    rewrite Z.land_spec, (byte_high_bits f n) by lia. reflexivity.
Qed.

(** Bits of a status after [|= flag] and [&= ~flag], for the single-bit flags. *)
Lemma testbit_set_flag (f j k : Z) :
  0 <= j -> 0 <= k < 8 ->
  Z.testbit (to_uint8 (Z.lor f (2 ^ j))) k = Z.testbit f k || (j =? k).
Proof.
  intros Hj Hk. rewrite testbit_to_uint8, Z.lor_spec, Z.pow2_bits_eqb by lia.
  reflexivity.
Qed.

Lemma testbit_clear_flag (f j k : Z) :
  0 <= j -> 0 <= k < 8 ->
  Z.testbit (to_uint8 (Z.land f (Z.lnot (2 ^ j)))) k = Z.testbit f k && negb (j =? k).
Proof.
  intros Hj Hk.
  rewrite testbit_to_uint8, Z.land_spec, Z.lnot_spec, Z.pow2_bits_eqb by lia.
  reflexivity.
Qed.

(** ** The setters *)

Lemma SetZBedProbePoint_in_range index z wasXyCorrected wasError s :
  (index < MaxProbePoints)%nat ->
  length (probePointSet s) = MaxProbePoints ->
  exists s',
    SetZBedProbePoint index z wasXyCorrected wasError s = Some s' /\
    xBedProbePoints s' = xBedProbePoints s /\
    yBedProbePoints s' = yBedProbePoints s /\
    zBedProbePoints s' = <[index := z]> (zBedProbePoints s) /\
    probePointSet s'
    = <[index := status_after_SetZ wasXyCorrected wasError (probePointSet s !!! index)]>
        (probePointSet s) /\
    numBedCompensationPoints s' = numBedCompensationPoints s /\
    aX s' = aX s /\ aY s' = aY s /\ aC s' = aC s /\
    xRectangle s' = xRectangle s /\ yRectangle s' = yRectangle s.
Proof.
  intros Hi Hlen. unfold SetZBedProbePoint.
  apply Nat.ltb_lt in Hi as Hb. rewrite Hb. eexists. split; [reflexivity|].
  rewrite <- Hlen in Hi.
  destruct wasXyCorrected, wasError; unfold or_flag, clear_flag, status_after_SetZ; simpl;
    rewrite ?list_lookup_total_insert_eq by (rewrite ?length_insert; exact Hi);
    rewrite ?list_insert_insert_eq; repeat split; reflexivity.
Qed.

Lemma SetXYBedProbePoint_in_range index x y s :
  (index < MaxProbePoints)%nat ->
  exists s',
    SetXYBedProbePoint index x y s = Some s' /\
    xBedProbePoints s' = <[index := x]> (xBedProbePoints s) /\
    yBedProbePoints s' = <[index := y]> (yBedProbePoints s) /\
    zBedProbePoints s' = zBedProbePoints s /\
    probePointSet s'
    = <[index := to_uint8 (Z.lor (probePointSet s !!! index) xySet)]> (probePointSet s) /\
    numBedCompensationPoints s' = numBedCompensationPoints s /\
    aX s' = aX s /\ aY s' = aY s /\ aC s' = aC s /\
    xRectangle s' = xRectangle s /\ yRectangle s' = yRectangle s.
Proof.
  intros Hi. unfold SetXYBedProbePoint.
  apply Nat.ltb_lt in Hi as Hb. rewrite Hb. eexists. split; [reflexivity|].
  unfold or_flag. simpl. repeat split; reflexivity.
Qed.

Lemma status_after_SetZ_bits wasXyCorrected wasError f :
  Z.testbit (status_after_SetZ wasXyCorrected wasError f) 0 = Z.testbit f 0 /\
  Z.testbit (status_after_SetZ wasXyCorrected wasError f) 1 = true /\
  Z.testbit (status_after_SetZ wasXyCorrected wasError f) 2 = wasXyCorrected /\
  Z.testbit (status_after_SetZ wasXyCorrected wasError f) 3 = wasError.
Proof.
  unfold status_after_SetZ.
  change zSet with (2 ^ 1). change xyCorrected with (2 ^ 2). change probeError with (2 ^ 3).
  destruct wasXyCorrected, wasError;
    repeat first [rewrite testbit_set_flag by lia | rewrite testbit_clear_flag by lia];
    cbv beta iota delta [Z.eqb Pos.eqb negb];
    rewrite ?orb_false_r, ?orb_true_r, ?andb_true_r, ?andb_false_r; auto.
Qed.

(** C7: for a valid index, whatever the record held before,
    [SetZBedProbePoint index z wasXyCorrected wasError] stores [z] in record
    [index], sets its [zSet] flag, and leaves its [xyCorrected] flag equal to
    [wasXyCorrected] and its [probeError] flag equal to [wasError]. *)
Theorem SetZBedProbePoint_overwrites_flags index z wasXyCorrected wasError s :
  wf s -> (index < MaxProbePoints)%nat ->
  exists s',
    SetZBedProbePoint index z wasXyCorrected wasError s = Some s' /\
    zBedProbePoints s' !!! index = z /\
    has_flag (probePointSet s' !!! index) zSet = true /\
    has_flag (probePointSet s' !!! index) xyCorrected = wasXyCorrected /\
    has_flag (probePointSet s' !!! index) probeError = wasError.
Proof.
  intros (_ & _ & _ & Hz & Hf & _) Hi.
  destruct (SetZBedProbePoint_in_range index z wasXyCorrected wasError s Hi Hf)
    as (s' & Hs' & _ & _ & Ez & Ef & _).
  exists s'. split; [exact Hs'|].
  rewrite Ez, Ef, has_zSet, has_xyCorrected, has_probeError.
  rewrite !list_lookup_total_insert_eq by lia.
  destruct (status_after_SetZ_bits wasXyCorrected wasError (probePointSet s !!! index))
    as (_ & H1 & H2 & H3).
  auto.
Qed.

(** ** Clearing the heights *)

Lemma ClearProbeHeights_loop n s :
  (n <= length (probePointSet s))%nat ->
  let s' := for_loop n (fun i s => clear_flag zSet i s) s in
  xBedProbePoints s' = xBedProbePoints s /\
  yBedProbePoints s' = yBedProbePoints s /\
  zBedProbePoints s' = zBedProbePoints s /\
  numBedCompensationPoints s' = numBedCompensationPoints s /\
  aX s' = aX s /\ aY s' = aY s /\ aC s' = aC s /\
  xRectangle s' = xRectangle s /\ yRectangle s' = yRectangle s /\
  length (probePointSet s') = length (probePointSet s) /\
  forall i,
    probePointSet s' !! i
    = if (i <? n)%nat
      then (fun f => to_uint8 (Z.land f (Z.lnot zSet))) <$> probePointSet s !! i
      else probePointSet s !! i.
Proof.
  induction n as [|n IH]; intros Hn; simpl.
  - repeat split; reflexivity.
  - destruct IH as (Ex & Ey & Ez & En & Ea & Eb & Ec & Exr & Eyr & El & Ef); [lia|].
    set (sn := for_loop n (fun i s => clear_flag zSet i s) s) in *.
    unfold clear_flag; simpl.
    repeat (split; [assumption|]).
    split; [now rewrite length_insert|].
    intros i. rewrite list_lookup_insert.
    destruct (lookup_lt_is_Some_2 (probePointSet s) n ltac:(lia)) as [v Hv].
    assert (Hsn : probePointSet sn !! n = Some v).
    { rewrite Ef. now rewrite (proj2 (Nat.ltb_ge n n)) by lia. }
    rewrite (list_lookup_total_correct _ _ _ Hsn).
    case_decide as Hd.
    + destruct Hd as [<- _].
      rewrite (proj2 (Nat.ltb_lt n (S n))) by lia. now rewrite Hv.
    + rewrite Ef.
      destruct (Nat.ltb_spec i n) as [Hlt|Hge].
      * now rewrite (proj2 (Nat.ltb_lt i (S n))) by lia.
      * destruct (Nat.eq_dec i n) as [->|Hne].
        -- exfalso. apply Hd. split; [reflexivity|lia].
        -- now rewrite (proj2 (Nat.ltb_ge i (S n))) by lia.
Qed.

Lemma ClearProbeHeights_statuses s :
  wf s ->
  probePointSet (ClearProbeHeights s)
  = (fun f => Z.land f (Z.lnot zSet)) <$> probePointSet s.
Proof.
  intros (_ & _ & _ & _ & Hlen & Hbytes).
  destruct (ClearProbeHeights_loop MaxProbePoints s ltac:(lia))
    as (_ & _ & _ & _ & _ & _ & _ & _ & _ & _ & Ef).
  fold (ClearProbeHeights s) in Ef.
  apply list_eq. intros i. rewrite Ef, list_lookup_fmap.
  destruct (Nat.ltb_spec i MaxProbePoints) as [Hlt|Hge].
  - destruct (probePointSet s !! i) as [f|] eqn:Hf; [|reflexivity].
    simpl. f_equal. apply to_uint8_clear.
    exact (Forall_lookup_1 _ _ _ _ Hbytes Hf).
  - rewrite lookup_ge_None_2 by lia. reflexivity.
Qed.

(** ** Counting the probe points *)

Lemma fully_set_mask f :
  fully_set f = (Z.land f (Z.lor xySet zSet) =? Z.lor xySet zSet).
Proof.
  unfold fully_set. rewrite has_xySet, has_zSet, Z.land_lor_distr_r.
  change xySet with (2 ^ 0). change zSet with (2 ^ 1).
  rewrite !land_single_bit by lia.
  destruct (Z.testbit f 0), (Z.testbit f 1); reflexivity.
Qed.

Lemma flags_differ_fully_set s i :
  flags_differ s i (Z.lor xySet zSet) (Z.lor xySet zSet)
  = negb (fully_set (probePointSet s !!! i)).
Proof. unfold flags_differ. now rewrite fully_set_mask. Qed.

Lemma NumberOfProbePoints_from_prefix s remaining i :
  length (probePointSet s) = MaxProbePoints ->
  (i + remaining = MaxProbePoints)%nat ->
  NumberOfProbePoints_from s remaining i
  = (i + prefix_length fully_set (drop i (probePointSet s)))%nat.
Proof.
  intros Hlen. revert i. induction remaining as [|r IH]; intros i Hi; simpl.
  - rewrite drop_ge by lia. simpl. lia.
  - destruct (lookup_lt_is_Some_2 (probePointSet s) i ltac:(lia)) as [f Hf].
    rewrite flags_differ_fully_set, (list_lookup_total_correct _ _ _ Hf).
    rewrite (drop_S _ _ _ Hf). simpl.
    destruct (fully_set f); simpl.
    + rewrite IH by lia. lia.
    + lia.
Qed.

Lemma prefix_length_all {A : Type} (p : A -> bool) (l : list A) :
  Forall (fun a => p a = true) l -> prefix_length p l = length l.
Proof.
  induction 1 as [|a l Ha _ IH]; simpl; [reflexivity|].
  now rewrite Ha, IH.
Qed.

(** C6: [NumberOfProbePoints] is the length of the longest prefix of records
    that have both [xySet] and [zSet]; it is [MaxProbePoints] when every
    record is fully set. *)
Theorem NumberOfProbePoints_longest_prefix s :
  wf s ->
  NumberOfProbePoints s = prefix_length fully_set (probePointSet s) /\
  (Forall (fun f => fully_set f = true) (probePointSet s) ->
   NumberOfProbePoints s = MaxProbePoints).
Proof.
  intros (_ & _ & _ & _ & Hlen & _).
  assert (E : NumberOfProbePoints s = prefix_length fully_set (probePointSet s)).
  { unfold NumberOfProbePoints.
    rewrite NumberOfProbePoints_from_prefix by (exact Hlen || lia).
    reflexivity. }
  split; [exact E|].
  intros Hall. rewrite E, prefix_length_all by exact Hall. exact Hlen.
Qed.

(** C8: [ClearProbeHeights] clears [zSet] on every record and changes nothing
    else: the coordinates, the stored heights, the fitted model and, in every
    status, all bits but [zSet] are as before; right afterwards
    [NumberOfProbePoints] is 0. *)
Theorem ClearProbeHeights_clears_only_zSet s :
  wf s ->
  let s' := ClearProbeHeights s in
  xBedProbePoints s' = xBedProbePoints s /\
  yBedProbePoints s' = yBedProbePoints s /\
  zBedProbePoints s' = zBedProbePoints s /\
  numBedCompensationPoints s' = numBedCompensationPoints s /\
  aX s' = aX s /\ aY s' = aY s /\ aC s' = aC s /\
  xRectangle s' = xRectangle s /\ yRectangle s' = yRectangle s /\
  (forall i, (i < MaxProbePoints)%nat ->
     probePointSet s' !!! i = Z.land (probePointSet s !!! i) (Z.lnot zSet) /\
     has_flag (probePointSet s' !!! i) zSet = false /\
     has_flag (probePointSet s' !!! i) xySet = has_flag (probePointSet s !!! i) xySet /\
     has_flag (probePointSet s' !!! i) xyCorrected
     = has_flag (probePointSet s !!! i) xyCorrected /\
     has_flag (probePointSet s' !!! i) probeError
     = has_flag (probePointSet s !!! i) probeError) /\
  NumberOfProbePoints s' = O.
Proof.
  intros Hwf. cbv zeta.
  pose proof (ClearProbeHeights_statuses s Hwf) as Ef.
  destruct Hwf as (Hcap & Hx & Hy & Hz & Hlen & Hbytes).
  destruct (ClearProbeHeights_loop MaxProbePoints s ltac:(lia))
    as (Ex & Ey & Ez & En & Ea & Eb & Ec & Exr & Eyr & El & _).
  fold (ClearProbeHeights s) in Ex, Ey, Ez, En, Ea, Eb, Ec, Exr, Eyr, El.
  remember (ClearProbeHeights s) as s' eqn:Es' in *. clear Es'.
  repeat (split; [assumption|]).
  assert (Hst : forall i, (i < MaxProbePoints)%nat ->
            probePointSet s' !!! i = Z.land (probePointSet s !!! i) (Z.lnot zSet)).
  { intros i Hi. rewrite Ef.
    now rewrite (list_lookup_total_fmap _ (probePointSet s) i) by lia. }
  split.
  - intros i Hi. rewrite (Hst i Hi).
    split; [reflexivity|].
    rewrite !has_zSet, !has_xySet, !has_xyCorrected, !has_probeError.
    rewrite !Z.land_spec. change zSet with (2 ^ 1).
    rewrite !Z.lnot_spec, !Z.pow2_bits_eqb by lia.
    cbv beta iota delta [Z.eqb Pos.eqb negb].
    rewrite ?andb_true_r, ?andb_false_r. auto.
  - unfold NumberOfProbePoints.
    rewrite NumberOfProbePoints_from_prefix by lia.
    rewrite drop_0, Nat.add_0_l.
    pose proof (Hst 0%nat ltac:(lia)) as H0.
    destruct (probePointSet s') as [|f l]; [reflexivity|].
    simpl in H0 |- *. change ((f :: l) !!! 0%nat) with f in H0.
    unfold fully_set. rewrite has_zSet, H0, Z.land_spec. change zSet with (2 ^ 1).
    rewrite Z.lnot_spec, Z.pow2_bits_eqb by lia.
    cbv beta iota delta [Z.eqb Pos.eqb negb].
    now rewrite !andb_false_r.
Qed.

(** ** The ordering check *)

Lemma SFcompare_antisym (a b : spec_float) :
  SFcompare b a = CompOpp <$> SFcompare a b.
Proof.
  destruct a as [sa|sa| |sa ma ea], b as [sb|sb| |sb mb eb]; simpl;
    try reflexivity; try (destruct sa; reflexivity); try (destruct sb; reflexivity);
    try (destruct sa, sb; reflexivity).
  destruct sa, sb; simpl; try reflexivity;
    rewrite (Z.compare_antisym eb ea); destruct (eb ?= ea) eqn:E; simpl;
    rewrite ?CompOpp_involutive; try reflexivity; f_equal;
    first [ exact (Pos.compare_cont_antisym mb ma Eq)
          | symmetry; exact (Pos.compare_cont_antisym ma mb Eq) ].
Qed.

Lemma SFcompare_not_nan (a b : spec_float) :
  F32.is_nan a = false -> F32.is_nan b = false -> is_Some (SFcompare a b).
Proof.
  destruct a as [sa|sa| |sa ma ea], b as [sb|sb| |sb mb eb]; simpl;
    intros Ha Hb; try discriminate; eexists; reflexivity.
Qed.

(** Without NaN, [a <= b] fails exactly when [b < a]. *)
Lemma leb_false_ltb (a b : spec_float) :
  F32.is_nan a = false -> F32.is_nan b = false ->
  F32.leb a b = false <-> F32.ltb b a = true.
Proof.
  intros Ha Hb. unfold F32.leb, F32.ltb, SFleb, SFltb.
  rewrite (SFcompare_antisym a b).
  destruct (SFcompare_not_nan a b Ha Hb) as [c ->]. simpl.
  destruct c; simpl; split; congruence.
Qed.

(** The check passes exactly when none of the applicable rejecting comparisons holds. *)
Lemma GoodProbePointOrdering_rejections numPoints s :
  GoodProbePointOrdering numPoints s = true <->
  ((2 <= numPoints)%nat ->
   F32.leb (yBedProbePoints s !!! 1%nat) (yBedProbePoints s !!! 0%nat) = false) /\
  ((3 <= numPoints)%nat ->
   F32.leb (xBedProbePoints s !!! 2%nat) (xBedProbePoints s !!! 1%nat) = false) /\
  ((4 <= numPoints)%nat ->
   F32.geb (yBedProbePoints s !!! 3%nat) (yBedProbePoints s !!! 2%nat) = false) /\
  ((4 <= numPoints)%nat ->
   F32.geb (xBedProbePoints s !!! 0%nat) (xBedProbePoints s !!! 3%nat) = false).
Proof.
  unfold GoodProbePointOrdering.
  destruct (Nat.leb_spec 2 numPoints) as [H2|H2];
  destruct (Nat.leb_spec 3 numPoints) as [H3|H3];
  destruct (Nat.leb_spec 4 numPoints) as [H4|H4]; simpl; try lia;
  destruct (F32.leb (yBedProbePoints s !!! 1%nat) (yBedProbePoints s !!! 0%nat));
  destruct (F32.leb (xBedProbePoints s !!! 2%nat) (xBedProbePoints s !!! 1%nat));
  destruct (F32.geb (yBedProbePoints s !!! 3%nat) (yBedProbePoints s !!! 2%nat));
  destruct (F32.geb (xBedProbePoints s !!! 0%nat) (xBedProbePoints s !!! 3%nat));
  simpl; split; try discriminate; try reflexivity;
  try (intros (A & B & C & D);
       first [specialize (A ltac:(lia)); discriminate
             | specialize (B ltac:(lia)); discriminate
             | specialize (C ltac:(lia)); discriminate
             | specialize (D ltac:(lia)); discriminate]);
  try (intros _; repeat split; intros; first [reflexivity | lia]).
Qed.

(** C4, amended: when none of the coordinates compared by the applicable
    rules is a NaN, [GoodProbePointOrdering numPoints] returns true if and only
    if every applicable rule holds: [y[1] > y[0]] from 2 points, [x[2] > x[1]]
    from 3 points, [y[3] < y[2]] and [x[0] < x[3]] from 4 points. *)
Theorem GoodProbePointOrdering_rules numPoints s :
  wf s -> compared_not_nan numPoints s ->
  GoodProbePointOrdering numPoints s = true <-> ordering_rules numPoints s.
Proof.
  intros _ (N2 & N3 & N4).
  rewrite GoodProbePointOrdering_rejections. unfold ordering_rules, F32.gtb, F32.geb.
  split; intros (A & B & C & D); repeat split; intros Hn.
  - apply leb_false_ltb; [apply N2 | apply N2 | apply A]; exact Hn.
  - apply leb_false_ltb; [apply N3 | apply N3 | apply B]; exact Hn.
  - apply leb_false_ltb; [apply N4 | apply N4 | apply C]; exact Hn.
  - apply leb_false_ltb; [apply N4 | apply N4 | apply D]; exact Hn.
  - apply leb_false_ltb; [apply N2 | apply N2 | apply A]; exact Hn.
  - apply leb_false_ltb; [apply N3 | apply N3 | apply B]; exact Hn.
  - apply leb_false_ltb; [apply N4 | apply N4 | apply C]; exact Hn.
  - apply leb_false_ltb; [apply N4 | apply N4 | apply D]; exact Hn.
Qed.

(** ** Fitting *)

Lemma fit_coefficients_None numPoints s :
  fit_coefficients numPoints s = None <-> numPoints <> 3%nat /\ numPoints <> 4%nat.
Proof.
  destruct numPoints as [|[|[|[|[|n]]]]]; simpl; split;
    try discriminate; try (intros [? ?]; congruence); intros _; split; discriminate.
Qed.

Lemma fit_coefficients_Some numPoints s s1 :
  fit_coefficients numPoints s = Some s1 ->
  (numPoints = 3%nat \/ numPoints = 4%nat) /\
  xBedProbePoints s1 = xBedProbePoints s /\
  yBedProbePoints s1 = yBedProbePoints s /\
  zBedProbePoints s1 = zBedProbePoints s /\
  probePointSet s1 = probePointSet s /\
  numBedCompensationPoints s1 = numBedCompensationPoints s.
Proof.
  destruct numPoints as [|[|[|[|[|n]]]]]; simpl; try discriminate;
    intros [= <-]; simpl; repeat split; auto.
Qed.

(** C3: when [SetProbedBedEquation] reports an error, the object is exactly
    as it was: [numBedCompensationPoints], the coefficients [aX], [aY], [aC],
    [xRectangle], [yRectangle] and every probe point record are unchanged. *)
Theorem SetProbedBedEquation_error_leaves_object numPoints s :
  wf s ->
  fit_error (SetProbedBedEquation numPoints s) = true ->
  fit_store (SetProbedBedEquation numPoints s) = s.
Proof.
  intros _. unfold SetProbedBedEquation.
  destruct (GoodProbePointOrdering numPoints s); simpl; [|reflexivity].
  destruct (fit_coefficients numPoints s); simpl; [discriminate|reflexivity].
Qed.

(** C10: [SetProbedBedEquation] returns [true] exactly when the fit fails,
    that is when the ordering check rejects the points or [numPoints] is
    neither 3 nor 4; it returns [false] exactly when the fit is made, and then
    [numBedCompensationPoints] is [numPoints]. *)
Theorem SetProbedBedEquation_true_is_error numPoints s :
  (fit_error (SetProbedBedEquation numPoints s) = true <->
   GoodProbePointOrdering numPoints s = false \/
   (numPoints <> 3%nat /\ numPoints <> 4%nat)) /\
  (fit_error (SetProbedBedEquation numPoints s) = false <->
   GoodProbePointOrdering numPoints s = true /\
   (numPoints = 3%nat \/ numPoints = 4%nat) /\
   numBedCompensationPoints (fit_store (SetProbedBedEquation numPoints s)) = numPoints).
Proof.
  unfold SetProbedBedEquation.
  destruct (GoodProbePointOrdering numPoints s); simpl.
  - destruct (fit_coefficients numPoints s) as [s1|] eqn:E; simpl.
    + destruct (fit_coefficients_Some _ _ _ E) as (Hn & _).
      split; split; try discriminate; auto.
      intros [?|[? ?]]; [discriminate|lia].
    + apply fit_coefficients_None in E.
      split; split; auto; try discriminate.
      intros (_ & Hn & _). lia.
  - split; split; auto; try discriminate. intros [? _]. discriminate.
Qed.

(** ** The number of compensation points *)

Lemma for_loop_invariant {S : Type} (P : S -> Prop) (body : nat -> S -> S) n s :
  (forall i t, P t -> P (body i t)) -> P s -> P (for_loop n body s).
Proof. intros Hbody Hs. induction n as [|n IH]; simpl; auto. Qed.

Lemma construct_num mem : numBedCompensationPoints (construct mem) = O.
Proof.
  unfold construct.
  apply (for_loop_invariant (fun t => numBedCompensationPoints t = O)); auto.
Qed.

Lemma SetXYBedProbePoint_num index x y s s' :
  SetXYBedProbePoint index x y s = Some s' ->
  numBedCompensationPoints s' = numBedCompensationPoints s.
Proof.
  unfold SetXYBedProbePoint. destruct (index <? MaxProbePoints)%nat; [|discriminate].
  intros [= <-]. reflexivity.
Qed.

Lemma SetZBedProbePoint_num index z wasXyCorrected wasError s s' :
  SetZBedProbePoint index z wasXyCorrected wasError s = Some s' ->
  numBedCompensationPoints s' = numBedCompensationPoints s.
Proof.
  unfold SetZBedProbePoint. destruct (index <? MaxProbePoints)%nat; [|discriminate].
  intros [= <-]. destruct wasXyCorrected, wasError; reflexivity.
Qed.

Lemma ClearProbeHeights_num s :
  numBedCompensationPoints (ClearProbeHeights s) = numBedCompensationPoints s.
Proof.
  unfold ClearProbeHeights.
  apply (for_loop_invariant
           (fun t => numBedCompensationPoints t = numBedCompensationPoints s)); auto.
Qed.

Lemma SetProbedBedEquation_num numPoints s :
  numBedCompensationPoints (fit_store (SetProbedBedEquation numPoints s))
  = numBedCompensationPoints s \/
  numBedCompensationPoints (fit_store (SetProbedBedEquation numPoints s)) = 3%nat \/
  numBedCompensationPoints (fit_store (SetProbedBedEquation numPoints s)) = 4%nat.
Proof.
  unfold SetProbedBedEquation.
  destruct (GoodProbePointOrdering numPoints s); simpl; [|now left].
  destruct (fit_coefficients numPoints s) as [s1|] eqn:E; simpl; [|now left].
  destruct (fit_coefficients_Some _ _ _ E) as (Hn & _). right. exact Hn.
Qed.

(** C9: [numBedCompensationPoints] is 0 after construction, and in every state
    an object can reach it is 0, 3 or 4, so the [case 0: default:] exit of
    [GetInterpolatedHeightError] is taken only when it is 0.  From such a state
    the setters and [ClearProbeHeights] keep it, and [SetProbedBedEquation]
    keeps it on error and sets it to [numPoints], which is 3 or 4, on success. *)
Theorem numBedCompensationPoints_0_3_4 s :
  reachable s ->
  (forall mem, numBedCompensationPoints (construct mem) = 0%nat) /\
  (numBedCompensationPoints s = 0%nat \/
   numBedCompensationPoints s = 3%nat \/
   numBedCompensationPoints s = 4%nat) /\
  (height_case (numBedCompensationPoints s) = CaseZeroOrDefault ->
   numBedCompensationPoints s = 0%nat) /\
  (forall index x y s', SetXYBedProbePoint index x y s = Some s' ->
     numBedCompensationPoints s' = numBedCompensationPoints s) /\
  (forall index z wasXyCorrected wasError s',
     SetZBedProbePoint index z wasXyCorrected wasError s = Some s' ->
     numBedCompensationPoints s' = numBedCompensationPoints s) /\
  numBedCompensationPoints (ClearProbeHeights s) = numBedCompensationPoints s /\
  (forall numPoints,
     (fit_error (SetProbedBedEquation numPoints s) = true ->
      numBedCompensationPoints (fit_store (SetProbedBedEquation numPoints s))
      = numBedCompensationPoints s) /\
     (fit_error (SetProbedBedEquation numPoints s) = false ->
      numBedCompensationPoints (fit_store (SetProbedBedEquation numPoints s)) = numPoints /\
      (numPoints = 3%nat \/ numPoints = 4%nat))).
Proof.
  intros Hr.
  assert (Hinv : numBedCompensationPoints s = 0%nat \/
                 numBedCompensationPoints s = 3%nat \/
                 numBedCompensationPoints s = 4%nat).
  { induction Hr as [mem _|s i x y s' _ IH E|s i z c e s' _ IH E|s _ IH|s n _ IH].
    - left. apply construct_num.
    - now rewrite (SetXYBedProbePoint_num _ _ _ _ _ E).
    - now rewrite (SetZBedProbePoint_num _ _ _ _ _ _ E).
    - now rewrite ClearProbeHeights_num.
    - destruct (SetProbedBedEquation_num n s) as [->|H]; [exact IH|now right]. }
  split; [exact construct_num|].
  split; [exact Hinv|].
  split.
  { destruct Hinv as [->|[->| ->]]; simpl; [reflexivity|discriminate|discriminate]. }
  split; [intros index x y s'; apply SetXYBedProbePoint_num|].
  split; [intros index z c e s'; apply SetZBedProbePoint_num|].
  split; [apply ClearProbeHeights_num|].
  intros numPoints. unfold SetProbedBedEquation.
  destruct (GoodProbePointOrdering numPoints s); simpl.
  - destruct (fit_coefficients numPoints s) as [s1|] eqn:E; simpl.
    + destruct (fit_coefficients_Some _ _ _ E) as (Hn & _).
      split; [discriminate|auto].
    + split; [reflexivity|discriminate].
  - split; [reflexivity|discriminate].
Qed.

(** ** Recording points *)

Lemma status_after_SetZ_range wasXyCorrected wasError f :
  0 <= status_after_SetZ wasXyCorrected wasError f < 2 ^ 8.
Proof.
  unfold status_after_SetZ. destruct wasXyCorrected, wasError; apply to_uint8_range.
Qed.

Lemma record_point_in_range index x y z wasXyCorrected wasError s :
  wf s -> (index < MaxProbePoints)%nat ->
  exists s',
    record_point index x y z wasXyCorrected wasError s = Some s' /\
    wf s' /\
    point_is s' index x y z /\
    (forall j a b c, j <> index -> point_is s j a b c -> point_is s' j a b c).
Proof.
  intros (Hcap & Hx & Hy & Hz & Hf & Hbytes) Hi. unfold record_point.
  destruct (SetXYBedProbePoint_in_range index x y s Hi)
    as (s1 & E1 & X1 & Y1 & Z1 & F1 & _).
  rewrite E1. simpl.
  assert (Hf1 : length (probePointSet s1) = MaxProbePoints)
    by (rewrite F1, length_insert; exact Hf).
  destruct (SetZBedProbePoint_in_range index z wasXyCorrected wasError s1 Hi Hf1)
    as (s2 & E2 & X2 & Y2 & Z2 & F2 & _).
  exists s2. split; [exact E2|].
  split; [|split].
  - unfold wf. rewrite X2, Y2, Z2, F2, X1, Y1, Z1, F1, !length_insert.
    repeat (split; [assumption|]).
    apply Forall_insert; [apply Forall_insert; [exact Hbytes|apply to_uint8_range]|].
    apply status_after_SetZ_range.
  - unfold point_is. rewrite X2, Y2, Z2, X1, Y1, Z1.
    rewrite !list_lookup_total_insert_eq by lia. auto.
  - intros j a b c Hj (Ha & Hb & Hc). unfold point_is.
    rewrite X2, Y2, Z2, X1, Y1, Z1.
    rewrite !list_lookup_total_insert_ne by auto. auto.
Qed.

Lemma plane_fit_of_points s :
  point_is s 0 (F32.of_Z 0) (F32.of_Z 0) (F32.of_Z 0) ->
  point_is s 1 (F32.of_Z 0) (F32.of_Z 1) (F32.of_Z 2) ->
  point_is s 2 (F32.of_Z 1) (F32.of_Z 1) (F32.of_Z 4) ->
  fit_error (SetProbedBedEquation 3 s) = false /\
  GetInterpolatedHeightError (F32.of_Z 0) (F32.of_Z 0)
    (fit_store (SetProbedBedEquation 3 s)) = F32.zero.
Proof.
  intros (X0 & Y0 & Z0) (X1 & Y1 & Z1) (X2 & Y2 & Z2).
  unfold SetProbedBedEquation, GoodProbePointOrdering, fit_coefficients.
  rewrite X0, Y0, Z0, X1, Y1, Z1, X2, Y2, Z2.
  vm_compute. split; reflexivity.
Qed.

Lemma bilinear_fit_of_points s :
  point_is s 0 (F32.of_Z 0) (F32.of_Z 0) (F32.of_Z 0) ->
  point_is s 1 (F32.of_Z 0) (F32.of_Z 1) (F32.of_Z 1) ->
  point_is s 2 (F32.of_Z 1) (F32.of_Z 1) (F32.of_Z 2) ->
  point_is s 3 (F32.of_Z 1) (F32.of_Z 0) (F32.of_Z 1) ->
  let s' := fit_store (SetProbedBedEquation 4 s) in
  fit_error (SetProbedBedEquation 4 s) = false /\
  GetInterpolatedHeightError (F32.of_scaled 1 (-1)) (F32.of_scaled 1 (-1)) s' = F32.of_Z 1 /\
  GetInterpolatedHeightError (F32.of_Z 0) (F32.of_Z 0) s' = F32.of_Z 0 /\
  GetInterpolatedHeightError (F32.of_Z 0) (F32.of_Z 1) s' = F32.of_Z 1 /\
  GetInterpolatedHeightError (F32.of_Z 1) (F32.of_Z 1) s' = F32.of_Z 2 /\
  GetInterpolatedHeightError (F32.of_Z 1) (F32.of_Z 0) s' = F32.of_Z 1.
Proof.
  intros (X0 & Y0 & Z0) (X1 & Y1 & Z1) (X2 & Y2 & Z2) (X3 & Y3 & Z3).
  assert (G : GoodProbePointOrdering 4 s = true).
  { unfold GoodProbePointOrdering. rewrite X0, Y0, X1, Y1, X2, Y2, X3, Y3. reflexivity. }
  assert (F : fit_coefficients 4 s = Some (with_rectangle (F32.of_Z 1) (F32.of_Z 1) s)).
  { unfold fit_coefficients. rewrite X0, Y0, Y1, X3. reflexivity. }
  unfold SetProbedBedEquation. rewrite G, F.
  cbn [negb fit_error fit_store].
  unfold GetInterpolatedHeightError, SecondDegreeTransformZ.
  cbn [with_num with_rectangle numBedCompensationPoints xBedProbePoints yBedProbePoints
       zBedProbePoints xRectangle yRectangle height_case].
  rewrite X0, Y0, Z0, Z1, Z2, Z3.
  vm_compute. repeat split; reflexivity.
Qed.

(** C1: once the points 0, 1, 2 have been recorded as (0,0,0), (0,1,2), (1,1,4)
    through [SetXYBedProbePoint] and [SetZBedProbePoint],
    [SetProbedBedEquation 3] succeeds and [GetInterpolatedHeightError 0 0] is
    exactly 0. *)
Theorem plane_fit_at_origin s0 c0 e0 c1 e1 c2 e2 :
  wf s0 ->
  exists s,
    (s1 ← record_point 0 (F32.of_Z 0) (F32.of_Z 0) (F32.of_Z 0) c0 e0 s0;
     s2 ← record_point 1 (F32.of_Z 0) (F32.of_Z 1) (F32.of_Z 2) c1 e1 s1;
     record_point 2 (F32.of_Z 1) (F32.of_Z 1) (F32.of_Z 4) c2 e2 s2) = Some s /\
    fit_error (SetProbedBedEquation 3 s) = false /\
    GetInterpolatedHeightError (F32.of_Z 0) (F32.of_Z 0)
      (fit_store (SetProbedBedEquation 3 s)) = F32.zero.
Proof.
  intros Hwf0. pose proof Hwf0 as (Hcap & _).
  destruct (record_point_in_range 0 (F32.of_Z 0) (F32.of_Z 0) (F32.of_Z 0) c0 e0 s0 Hwf0)
    as (s1 & E1 & Hwf1 & P10 & _); [lia|].
  destruct (record_point_in_range 1 (F32.of_Z 0) (F32.of_Z 1) (F32.of_Z 2) c1 e1 s1 Hwf1)
    as (s2 & E2 & Hwf2 & P21 & K2); [lia|].
  destruct (record_point_in_range 2 (F32.of_Z 1) (F32.of_Z 1) (F32.of_Z 4) c2 e2 s2 Hwf2)
    as (s3 & E3 & _ & P32 & K3); [lia|].
  exists s3. rewrite E1. cbn [mbind option_bind]. rewrite E2. cbn [mbind option_bind].
  split; [exact E3|].
  apply plane_fit_of_points.
  - apply K3; [lia|]. apply K2; [lia|]. exact P10.
  - apply K3; [lia|]. exact P21.
  - exact P32.
Qed.

(** C2: once the points 0 to 3 have been recorded as the corners (0,0,0),
    (0,1,1), (1,1,2), (1,0,1), [SetProbedBedEquation 4] succeeds; afterwards
    [GetInterpolatedHeightError 0.5 0.5] is 1, the average of the four corner
    heights, and at each corner it is exactly that corner's height. *)
Theorem bilinear_fit_on_unit_square s0 c0 e0 c1 e1 c2 e2 c3 e3 :
  wf s0 ->
  exists s,
    (s1 ← record_point 0 (F32.of_Z 0) (F32.of_Z 0) (F32.of_Z 0) c0 e0 s0;
     s2 ← record_point 1 (F32.of_Z 0) (F32.of_Z 1) (F32.of_Z 1) c1 e1 s1;
     s3 ← record_point 2 (F32.of_Z 1) (F32.of_Z 1) (F32.of_Z 2) c2 e2 s2;
     record_point 3 (F32.of_Z 1) (F32.of_Z 0) (F32.of_Z 1) c3 e3 s3) = Some s /\
    fit_error (SetProbedBedEquation 4 s) = false /\
    GetInterpolatedHeightError (F32.of_scaled 1 (-1)) (F32.of_scaled 1 (-1))
      (fit_store (SetProbedBedEquation 4 s)) = F32.of_Z 1 /\
    GetInterpolatedHeightError (F32.of_Z 0) (F32.of_Z 0)
      (fit_store (SetProbedBedEquation 4 s)) = F32.of_Z 0 /\
    GetInterpolatedHeightError (F32.of_Z 0) (F32.of_Z 1)
      (fit_store (SetProbedBedEquation 4 s)) = F32.of_Z 1 /\
    GetInterpolatedHeightError (F32.of_Z 1) (F32.of_Z 1)
      (fit_store (SetProbedBedEquation 4 s)) = F32.of_Z 2 /\
    GetInterpolatedHeightError (F32.of_Z 1) (F32.of_Z 0)
      (fit_store (SetProbedBedEquation 4 s)) = F32.of_Z 1.
Proof.
  intros Hwf0. pose proof Hwf0 as (Hcap & _).
  destruct (record_point_in_range 0 (F32.of_Z 0) (F32.of_Z 0) (F32.of_Z 0) c0 e0 s0 Hwf0)
    as (s1 & E1 & Hwf1 & P10 & _); [lia|].
  destruct (record_point_in_range 1 (F32.of_Z 0) (F32.of_Z 1) (F32.of_Z 1) c1 e1 s1 Hwf1)
    as (s2 & E2 & Hwf2 & P21 & K2); [lia|].
  destruct (record_point_in_range 2 (F32.of_Z 1) (F32.of_Z 1) (F32.of_Z 2) c2 e2 s2 Hwf2)
    as (s3 & E3 & Hwf3 & P32 & K3); [lia|].
  destruct (record_point_in_range 3 (F32.of_Z 1) (F32.of_Z 0) (F32.of_Z 1) c3 e3 s3 Hwf3)
    as (s4 & E4 & _ & P43 & K4); [lia|].
  exists s4. rewrite E1. cbn [mbind option_bind]. rewrite E2. cbn [mbind option_bind].
  rewrite E3. cbn [mbind option_bind].
  split; [exact E4|].
  apply bilinear_fit_of_points.
  - apply K4; [lia|]. apply K3; [lia|]. apply K2; [lia|]. exact P10.
  - apply K4; [lia|]. apply K3; [lia|]. exact P21.
  - apply K4; [lia|]. exact P32.
  - exact P43.
Qed.

(** ** Good probe points *)

Lemma valid_record_mask f :
  valid_record f
  = (Z.land f (Z.lor (Z.lor xySet zSet) probeError) =? Z.lor xySet zSet).
Proof.
  unfold valid_record, fully_set.
  rewrite has_xySet, has_zSet, has_probeError, !Z.land_lor_distr_r.
  change xySet with (2 ^ 0). change zSet with (2 ^ 1). change probeError with (2 ^ 3).
  rewrite !land_single_bit by lia.
  destruct (Z.testbit f 0), (Z.testbit f 1), (Z.testbit f 3); reflexivity.
Qed.

Lemma GoodProbePoints_from_forallb s remaining i :
  GoodProbePoints_from s remaining i
  = forallb (fun j => valid_record (probePointSet s !!! j)) (seq i remaining).
Proof.
  revert i. induction remaining as [|r IH]; intros i; simpl; [reflexivity|].
  unfold flags_differ. rewrite <- valid_record_mask, IH.
  destruct (valid_record (probePointSet s !!! i)); reflexivity.
Qed.

Lemma valid_heights_from_length s (l : list nat) :
  forallb (fun j => valid_record (probePointSet s !!! j)) l = true ->
  length (omap (fun i => if valid_record (probePointSet s !!! i)
                         then Some (zBedProbePoints s !!! i) else None) l)
  = length l.
Proof.
  induction l as [|j l IH]; csimpl; [reflexivity|].
  intros [Hj Hl]%andb_true_iff. rewrite Hj. csimpl. now rewrite IH.
Qed.

(** After [GoodProbePoints numPoints] has returned true, the first [numPoints]
    records all hold a valid height. *)
Lemma valid_heights_after_GoodProbePoints numPoints s :
  GoodProbePoints numPoints s = true ->
  length (valid_heights numPoints s) = numPoints.
Proof.
  unfold GoodProbePoints. rewrite GoodProbePoints_from_forallb. intros Hall.
  unfold valid_heights.
  rewrite (valid_heights_from_length s (seq 0 numPoints) Hall).
  apply length_seq.
Qed.

(** ** The report *)

Lemma ReportProbeHeights_loop numPoints s :
  for_loop numPoints (report_step s)
    ([], F32.of_double F64.zero, F32.of_double F64.zero)
  = (height_entry s <$> seq 0 numPoints,
     float_sum (valid_heights numPoints s),
     float_sum (fsquare <$> valid_heights numPoints s)).
Proof.
  induction numPoints as [|n IH]; [reflexivity|].
  cbn [for_loop]. rewrite IH. unfold valid_heights, float_sum.
  rewrite seq_S, omap_app, fmap_app, fmap_app, !foldl_app. simpl.
  unfold report_step, height_entry, valid_record.
  rewrite flags_differ_fully_set.
  destruct (fully_set (probePointSet s !!! n)); simpl; [|reflexivity].
  destruct (has_flag (probePointSet s !!! n) probeError); reflexivity.
Qed.

(** Whatever the records hold, the reported mean and deviation are the sum
    and the sum of squares of the valid heights divided by [numPoints], not
    by the number of valid heights. *)
Lemma ReportProbeHeights_divides_by_numPoints numPoints s :
  let heights := valid_heights numPoints s in
  let count := F32.of_Z (Z.of_nat numPoints) in
  let mean := F32.div (float_sum heights) count in
  ReportProbeHeights numPoints s
  = mkHeightsReport (height_entry s <$> seq 0 numPoints) mean
      (F32.sqrt
         (max_float (F32.sub (F32.div (float_sum (fsquare <$> heights)) count)
                             (fsquare mean))
                    (F32.of_double F64.zero))).
Proof. unfold ReportProbeHeights. rewrite ReportProbeHeights_loop. reflexivity. Qed.

(** When the first [numPoints] records are all valid, these are the mean and
    the population standard deviation of their heights. *)
Lemma ReportProbeHeights_all_valid numPoints s :
  length (valid_heights numPoints s) = numPoints ->
  report_mean (ReportProbeHeights numPoints s) = mean_of (valid_heights numPoints s) /\
  report_deviation (ReportProbeHeights numPoints s)
  = deviation_of (valid_heights numPoints s).
Proof.
  intros Hall. rewrite ReportProbeHeights_divides_by_numPoints. simpl.
  unfold mean_of, deviation_of, mean_of. rewrite Hall. split; reflexivity.
Qed.

(** ** Construction and well-formed objects *)

Lemma SetXYBedProbePoint_Some index x y s s' :
  SetXYBedProbePoint index x y s = Some s' ->
  (index < MaxProbePoints)%nat /\
  xBedProbePoints s' = <[index := x]> (xBedProbePoints s) /\
  yBedProbePoints s' = <[index := y]> (yBedProbePoints s) /\
  zBedProbePoints s' = zBedProbePoints s /\
  probePointSet s'
  = <[index := to_uint8 (Z.lor (probePointSet s !!! index) xySet)]> (probePointSet s) /\
  same_model s s'.
Proof.
  unfold SetXYBedProbePoint.
  destruct (index <? MaxProbePoints)%nat eqn:Hb; [|discriminate].
  intros [= <-]. apply Nat.ltb_lt in Hb.
  unfold same_model, or_flag. simpl. repeat split; auto.
Qed.

Lemma SetZBedProbePoint_Some index z wasXyCorrected wasError s s' :
  length (probePointSet s) = MaxProbePoints ->
  SetZBedProbePoint index z wasXyCorrected wasError s = Some s' ->
  (index < MaxProbePoints)%nat /\
  xBedProbePoints s' = xBedProbePoints s /\
  yBedProbePoints s' = yBedProbePoints s /\
  zBedProbePoints s' = <[index := z]> (zBedProbePoints s) /\
  probePointSet s'
  = <[index := status_after_SetZ wasXyCorrected wasError (probePointSet s !!! index)]>
      (probePointSet s) /\
  same_model s s'.
Proof.
  intros Hlen E.
  assert (Hi : (index < MaxProbePoints)%nat).
  { unfold SetZBedProbePoint in E.
    destruct (index <? MaxProbePoints)%nat eqn:Hb; [|discriminate].
    now apply Nat.ltb_lt. }
  destruct (SetZBedProbePoint_in_range index z wasXyCorrected wasError s Hi Hlen)
    as (s2 & E2 & Ex & Ey & Ez & Ef & En & Ea & Eb & Ec & Exr & Eyr).
  rewrite E in E2. injection E2 as <-.
  unfold same_model. repeat split; assumption.
Qed.

Lemma replicate_snoc_cons {A : Type} n (v : A) (l : list A) :
  replicate n v ++ v :: l = v :: replicate n v ++ l.
Proof. induction n as [|n IH]; simpl; [reflexivity|]. now rewrite IH. Qed.

Lemma construct_loop n mem :
  (n <= length (zBedProbePoints mem))%nat ->
  (n <= length (probePointSet mem))%nat ->
  let s := for_loop n
             (fun point s =>
                with_z (<[point := F32.of_double F64.zero]> (zBedProbePoints s))
                  (with_flags (<[point := unset]> (probePointSet s)) s))
             (with_num 0 mem) in
  xBedProbePoints s = xBedProbePoints mem /\
  yBedProbePoints s = yBedProbePoints mem /\
  zBedProbePoints s = replicate n F32.zero ++ drop n (zBedProbePoints mem) /\
  probePointSet s = replicate n unset ++ drop n (probePointSet mem).
Proof.
  induction n as [|n IH]; intros Hz Hf; cbn [for_loop].
  - simpl. rewrite !drop_0. auto.
  - destruct IH as (Ex & Ey & Ez & Ef); [lia|lia|].
    set (sn := for_loop n _ _) in *. simpl.
    repeat (split; [assumption|]).
    rewrite Ez, Ef.
    destruct (lookup_lt_is_Some_2 (zBedProbePoints mem) n ltac:(lia)) as [a Ha].
    destruct (lookup_lt_is_Some_2 (probePointSet mem) n ltac:(lia)) as [b Hb].
    rewrite !insert_app_r_alt by (rewrite length_replicate; lia).
    rewrite !length_replicate, Nat.sub_diag.
    rewrite (drop_S _ _ _ Ha), (drop_S _ _ _ Hb). simpl.
    split; [exact (replicate_snoc_cons n F32.zero _)|apply replicate_snoc_cons].
Qed.

Lemma construct_arrays mem :
  wf mem ->
  xBedProbePoints (construct mem) = xBedProbePoints mem /\
  yBedProbePoints (construct mem) = yBedProbePoints mem /\
  zBedProbePoints (construct mem) = replicate MaxProbePoints F32.zero /\
  probePointSet (construct mem) = replicate MaxProbePoints unset.
Proof.
  intros (_ & _ & _ & Hz & Hf & _).
  destruct (construct_loop MaxProbePoints mem ltac:(lia) ltac:(lia)) as (Ex & Ey & Ez & Ef).
  fold (construct mem) in Ex, Ey, Ez, Ef.
  rewrite drop_ge, app_nil_r in Ez by lia.
  rewrite drop_ge, app_nil_r in Ef by lia.
  auto.
Qed.

Lemma construct_wf mem : wf mem -> wf (construct mem).
Proof.
  intros Hwf. destruct (construct_arrays mem Hwf) as (Ex & Ey & Ez & Ef).
  destruct Hwf as (Hcap & Hx & Hy & _).
  unfold wf. rewrite Ex, Ey, Ez, Ef, !length_replicate.
  repeat (split; [assumption || reflexivity|]).
  apply Forall_replicate. unfold unset. lia.
Qed.

Lemma SetXYBedProbePoint_wf index x y s s' :
  wf s -> SetXYBedProbePoint index x y s = Some s' -> wf s'.
Proof.
  intros (Hcap & Hx & Hy & Hz & Hf & Hb) E.
  destruct (SetXYBedProbePoint_Some _ _ _ _ _ E) as (_ & Ex & Ey & Ez & Ef & _).
  unfold wf. rewrite Ex, Ey, Ez, Ef, !length_insert.
  repeat (split; [assumption|]).
  apply Forall_insert; [exact Hb|apply to_uint8_range].
Qed.

Lemma SetZBedProbePoint_wf index z wasXyCorrected wasError s s' :
  wf s -> SetZBedProbePoint index z wasXyCorrected wasError s = Some s' -> wf s'.
Proof.
  intros (Hcap & Hx & Hy & Hz & Hf & Hb) E.
  destruct (SetZBedProbePoint_Some _ _ _ _ _ _ Hf E) as (_ & Ex & Ey & Ez & Ef & _).
  unfold wf. rewrite Ex, Ey, Ez, Ef, !length_insert.
  repeat (split; [assumption|]).
  apply Forall_insert; [exact Hb|apply status_after_SetZ_range].
Qed.

Lemma ClearProbeHeights_arrays s :
  wf s ->
  xBedProbePoints (ClearProbeHeights s) = xBedProbePoints s /\
  yBedProbePoints (ClearProbeHeights s) = yBedProbePoints s /\
  zBedProbePoints (ClearProbeHeights s) = zBedProbePoints s /\
  same_model s (ClearProbeHeights s).
Proof.
  intros (_ & _ & _ & _ & Hf & _).
  destruct (ClearProbeHeights_loop MaxProbePoints s ltac:(lia))
    as (Ex & Ey & Ez & En & Ea & Eb & Ec & Exr & Eyr & _).
  fold (ClearProbeHeights s) in Ex, Ey, Ez, En, Ea, Eb, Ec, Exr, Eyr.
  unfold same_model. repeat split; assumption.
Qed.

Lemma ClearProbeHeights_wf s : wf s -> wf (ClearProbeHeights s).
Proof.
  intros Hwf. pose proof (ClearProbeHeights_statuses s Hwf) as Ef.
  destruct (ClearProbeHeights_arrays s Hwf) as (Ex & Ey & Ez & _).
  destruct Hwf as (Hcap & Hx & Hy & Hz & Hf & Hb).
  unfold wf. rewrite Ex, Ey, Ez, Ef, length_fmap.
  repeat (split; [assumption|]).
  apply Forall_fmap. eapply Forall_impl; [exact Hb|].
  intros f Hr. simpl. rewrite <- (to_uint8_clear f zSet Hr). apply to_uint8_range.
Qed.

Lemma SetProbedBedEquation_arrays numPoints s :
  xBedProbePoints (fit_store (SetProbedBedEquation numPoints s)) = xBedProbePoints s /\
  yBedProbePoints (fit_store (SetProbedBedEquation numPoints s)) = yBedProbePoints s /\
  zBedProbePoints (fit_store (SetProbedBedEquation numPoints s)) = zBedProbePoints s /\
  probePointSet (fit_store (SetProbedBedEquation numPoints s)) = probePointSet s.
Proof.
  unfold SetProbedBedEquation.
  destruct (GoodProbePointOrdering numPoints s); simpl; [|auto].
  destruct (fit_coefficients numPoints s) as [s1|] eqn:E; simpl; [|auto].
  destruct (fit_coefficients_Some _ _ _ E) as (_ & Ex & Ey & Ez & Ef & _). auto.
Qed.

Lemma SetProbedBedEquation_wf numPoints s :
  wf s -> wf (fit_store (SetProbedBedEquation numPoints s)).
Proof.
  intros Hwf. destruct (SetProbedBedEquation_arrays numPoints s) as (Ex & Ey & Ez & Ef).
  unfold wf. rewrite Ex, Ey, Ez, Ef. exact Hwf.
Qed.

(** X1: a new object has every record unset and every height 0.0, no model
    ([numBedCompensationPoints] 0), and its coordinate arrays are whatever the
    storage held; so [NumberOfProbePoints] is 0, [GoodProbePoints] fails for
    any positive count and every height error is 0. *)
Theorem construct_initial_state mem :
  wf mem ->
  wf (construct mem) /\
  probePointSet (construct mem) = replicate MaxProbePoints unset /\
  zBedProbePoints (construct mem) = replicate MaxProbePoints F32.zero /\
  xBedProbePoints (construct mem) = xBedProbePoints mem /\
  yBedProbePoints (construct mem) = yBedProbePoints mem /\
  numBedCompensationPoints (construct mem) = 0%nat /\
  NumberOfProbePoints (construct mem) = 0%nat /\
  (forall n, (1 <= n)%nat -> GoodProbePoints n (construct mem) = false) /\
  (forall x y, GetInterpolatedHeightError x y (construct mem) = F32.zero).
Proof.
  intros Hwf. pose proof (construct_wf mem Hwf) as Hwf'.
  destruct (construct_arrays mem Hwf) as (Ex & Ey & Ez & Ef).
  pose proof (construct_num mem) as En.
  destruct Hwf as (Hcap & _).
  assert (H0 : probePointSet (construct mem) !!! 0%nat = unset).
  { rewrite Ef. apply lookup_total_replicate_2. lia. }
  repeat (split; [assumption|]).
  split; [|split].
  - unfold NumberOfProbePoints.
    destruct MaxProbePoints as [|m]; [lia|]. simpl.
    rewrite flags_differ_fully_set, H0. reflexivity.
  - intros [|n] Hn; [lia|]. unfold GoodProbePoints. simpl.
    unfold flags_differ. rewrite H0. reflexivity.
  - intros x y. unfold GetInterpolatedHeightError. rewrite En. reflexivity.
Qed.

(** X2: every state an object reaches through its constructor and mutators is
    a well-formed object: the four arrays keep [MaxProbePoints] elements and
    every status stays a byte. *)
Theorem reachable_wf s : reachable s -> wf s.
Proof.
  induction 1 as [mem Hm|s i x y s' _ IH E|s i z c e s' _ IH E|s _ IH|s n _ IH].
  - apply construct_wf, Hm.
  - exact (SetXYBedProbePoint_wf _ _ _ _ _ IH E).
  - exact (SetZBedProbePoint_wf _ _ _ _ _ _ IH E).
  - apply ClearProbeHeights_wf, IH.
  - apply SetProbedBedEquation_wf, IH.
Qed.

(** ** The setters leave the rest alone *)

(** X3: [SetXYBedProbePoint] stores the coordinates in record [index] and sets
    its [xySet] flag; the record keeps its height and its [zSet], [xyCorrected]
    and [probeError] flags, every other record and the fitted model are
    untouched. *)
Theorem SetXYBedProbePoint_frame index x y s s' :
  wf s -> SetXYBedProbePoint index x y s = Some s' ->
  xBedProbePoints s' !!! index = x /\
  yBedProbePoints s' !!! index = y /\
  has_flag (probePointSet s' !!! index) xySet = true /\
  has_flag (probePointSet s' !!! index) zSet = has_flag (probePointSet s !!! index) zSet /\
  has_flag (probePointSet s' !!! index) xyCorrected
  = has_flag (probePointSet s !!! index) xyCorrected /\
  has_flag (probePointSet s' !!! index) probeError
  = has_flag (probePointSet s !!! index) probeError /\
  zBedProbePoints s' = zBedProbePoints s /\
  (forall j, j <> index ->
     xBedProbePoints s' !!! j = xBedProbePoints s !!! j /\
     yBedProbePoints s' !!! j = yBedProbePoints s !!! j /\
     probePointSet s' !!! j = probePointSet s !!! j) /\
  same_model s s'.
Proof.
  intros (Hcap & Hx & Hy & Hz & Hf & Hb) E.
  destruct (SetXYBedProbePoint_Some _ _ _ _ _ E) as (Hi & Ex & Ey & Ez & Ef & Hm).
  rewrite Ex, Ey, Ef, !list_lookup_total_insert_eq by lia.
  rewrite !has_xySet, !has_zSet, !has_xyCorrected, !has_probeError.
  change xySet with (2 ^ 0). rewrite !testbit_set_flag by lia.
  cbv beta iota delta [Z.eqb Pos.eqb].
  rewrite orb_true_r, !orb_false_r.
  repeat (split; [reflexivity || assumption|]).
  split; [|exact Hm].
  intros j Hj. rewrite !list_lookup_total_insert_ne by auto. auto.
Qed.

(** X4: [SetZBedProbePoint] leaves all coordinates, the [xySet] flag of record
    [index], the height and status of every other record and the fitted model
    untouched. *)
Theorem SetZBedProbePoint_frame index z wasXyCorrected wasError s s' :
  wf s -> SetZBedProbePoint index z wasXyCorrected wasError s = Some s' ->
  xBedProbePoints s' = xBedProbePoints s /\
  yBedProbePoints s' = yBedProbePoints s /\
  has_flag (probePointSet s' !!! index) xySet
  = has_flag (probePointSet s !!! index) xySet /\
  (forall j, j <> index ->
     zBedProbePoints s' !!! j = zBedProbePoints s !!! j /\
     probePointSet s' !!! j = probePointSet s !!! j) /\
  same_model s s'.
Proof.
  intros (Hcap & Hx & Hy & Hz & Hf & Hb) E.
  destruct (SetZBedProbePoint_Some _ _ _ _ _ _ Hf E) as (Hi & Ex & Ey & Ez & Ef & Hm).
  repeat (split; [assumption|]).
  split; [|split; [|exact Hm]].
  - rewrite Ef, list_lookup_total_insert_eq, !has_xySet by lia.
    apply (status_after_SetZ_bits wasXyCorrected wasError).
  - intros j Hj. rewrite Ez, Ef, !list_lookup_total_insert_ne by auto. auto.
Qed.

(** ** Good points and the number of points *)

Lemma NumberOfProbePoints_prefix_length s :
  length (probePointSet s) = MaxProbePoints ->
  NumberOfProbePoints s = prefix_length fully_set (probePointSet s).
Proof.
  intros Hlen. unfold NumberOfProbePoints.
  rewrite NumberOfProbePoints_from_prefix by (exact Hlen || lia).
  now rewrite drop_0.
Qed.

Lemma prefix_length_le {A : Type} (p : A -> bool) (l : list A) :
  (prefix_length p l <= length l)%nat.
Proof. induction l as [|a l IH]; simpl; [lia|]. destruct (p a); simpl; lia. Qed.

Lemma prefix_length_ge `{!Inhabited A} (p : A -> bool) (l : list A) n :
  (n <= length l)%nat ->
  (forall i, (i < n)%nat -> p (l !!! i) = true) ->
  (n <= prefix_length p l)%nat.
Proof.
  revert n. induction l as [|a l IH]; intros n Hn Hall; simpl in Hn |- *; [lia|].
  destruct n as [|n]; [lia|].
  pose proof (Hall 0%nat ltac:(lia)) as H0.
  change ((a :: l) !!! 0%nat) with a in H0. rewrite H0.
  apply le_n_S, IH; [lia|].
  intros i Hi. exact (Hall (S i) ltac:(lia)).
Qed.

Lemma prefix_length_insert_mono {A : Type} (p : A -> bool) (l : list A) i v :
  (forall a, l !! i = Some a -> p a = true -> p v = true) ->
  (prefix_length p l <= prefix_length p (<[i := v]> l))%nat.
Proof.
  revert i. induction l as [|a l IH]; intros i Hv; simpl; [lia|].
  destruct i as [|i]; simpl.
  - destruct (p a) eqn:Ha; [|lia].
    rewrite (Hv a eq_refl Ha). lia.
  - destruct (p a); [|lia]. apply le_n_S, IH. exact Hv.
Qed.

Lemma prefix_length_insert_at {A : Type} (p : A -> bool) (l : list A) v :
  (prefix_length p l < length l)%nat -> p v = true ->
  (S (prefix_length p l) <= prefix_length p (<[prefix_length p l := v]> l))%nat.
Proof.
  induction l as [|a l IH]; simpl; intros Hn Hv; [lia|].
  destruct (p a) eqn:Ha; simpl.
  - rewrite Ha. apply le_n_S, IH; [lia|exact Hv].
  - rewrite Hv. lia.
Qed.

Lemma forallb_ext_on {A : Type} (f g : A -> bool) (l : list A) :
  (forall a, In a l -> f a = g a) -> forallb f l = forallb g l.
Proof.
  induction l as [|a l IH]; simpl; intros H; [reflexivity|].
  rewrite (H a (or_introl eq_refl)), IH; [reflexivity|].
  intros b Hb. apply H. now right.
Qed.

Lemma GoodProbePoints_forall numPoints s :
  GoodProbePoints numPoints s = true <->
  forall i, (i < numPoints)%nat -> valid_record (probePointSet s !!! i) = true.
Proof.
  unfold GoodProbePoints. rewrite GoodProbePoints_from_forallb, forallb_forall.
  split.
  - intros H i Hi. apply H, in_seq. lia.
  - intros H i Hi%in_seq. apply H. lia.
Qed.

Lemma fully_set_after_SetXY f :
  fully_set f = true -> fully_set (to_uint8 (Z.lor f xySet)) = true.
Proof.
  unfold fully_set. rewrite !has_xySet, !has_zSet.
  change xySet with (2 ^ 0). rewrite !testbit_set_flag by lia.
  cbv beta iota delta [Z.eqb Pos.eqb]. rewrite orb_true_r, orb_false_r.
  now intros [_ ->]%andb_true_iff.
Qed.

Lemma fully_set_after_SetZ wasXyCorrected wasError f :
  fully_set (status_after_SetZ wasXyCorrected wasError f) = Z.testbit f 0.
Proof.
  unfold fully_set. rewrite has_xySet, has_zSet.
  destruct (status_after_SetZ_bits wasXyCorrected wasError f) as (-> & -> & _).
  apply andb_true_r.
Qed.

Lemma valid_record_after_SetZ wasXyCorrected wasError f :
  valid_record (status_after_SetZ wasXyCorrected wasError f)
  = Z.testbit f 0 && negb wasError.
Proof.
  unfold valid_record. rewrite fully_set_after_SetZ, has_probeError.
  destruct (status_after_SetZ_bits wasXyCorrected wasError f) as (_ & _ & _ & ->).
  reflexivity.
Qed.

(** X5: for a count within the capacity, [GoodProbePoints] returns true exactly
    when each of the first [numPoints] records has [xySet] and [zSet] and has
    no [probeError]; for a count of 0 it is true. *)
Theorem GoodProbePoints_iff numPoints s :
  wf s -> (numPoints <= MaxProbePoints)%nat ->
  (GoodProbePoints numPoints s = true <->
   forall i, (i < numPoints)%nat ->
     has_flag (probePointSet s !!! i) xySet = true /\
     has_flag (probePointSet s !!! i) zSet = true /\
     has_flag (probePointSet s !!! i) probeError = false) /\
  GoodProbePoints 0 s = true.
Proof.
  intros _ _. split; [|reflexivity].
  rewrite GoodProbePoints_forall. unfold valid_record, fully_set.
  split; intros H i Hi; specialize (H i Hi).
  - apply andb_true_iff in H as [[H1 H2]%andb_true_iff H3].
    apply negb_true_iff in H3. auto.
  - destruct H as (-> & -> & ->). reflexivity.
Qed.

(** X6: [NumberOfProbePoints] never exceeds [MaxProbePoints], and whenever
    [GoodProbePoints numPoints] holds for a count within the capacity,
    [NumberOfProbePoints] is at least [numPoints]. *)
Theorem GoodProbePoints_le_NumberOfProbePoints numPoints s :
  wf s -> (numPoints <= MaxProbePoints)%nat ->
  GoodProbePoints numPoints s = true ->
  (numPoints <= NumberOfProbePoints s)%nat /\
  (NumberOfProbePoints s <= MaxProbePoints)%nat.
Proof.
  intros (_ & _ & _ & _ & Hf & _) Hn Hgood.
  rewrite NumberOfProbePoints_prefix_length by exact Hf.
  split.
  - apply prefix_length_ge; [lia|].
    intros i Hi. pose proof (proj1 (GoodProbePoints_forall numPoints s) Hgood i Hi) as Hv.
    unfold valid_record in Hv. now apply andb_true_iff in Hv as [-> _].
  - rewrite <- Hf. apply prefix_length_le.
Qed.

(** X7: neither setter ever lowers [NumberOfProbePoints]. *)
Theorem setters_keep_NumberOfProbePoints s :
  wf s ->
  (forall index x y s',
     SetXYBedProbePoint index x y s = Some s' ->
     (NumberOfProbePoints s <= NumberOfProbePoints s')%nat) /\
  (forall index z wasXyCorrected wasError s',
     SetZBedProbePoint index z wasXyCorrected wasError s = Some s' ->
     (NumberOfProbePoints s <= NumberOfProbePoints s')%nat).
Proof.
  intros (_ & _ & _ & _ & Hf & _). split.
  - intros index x y s' E.
    destruct (SetXYBedProbePoint_Some _ _ _ _ _ E) as (Hi & _ & _ & _ & Ef & _).
    rewrite !NumberOfProbePoints_prefix_length by (rewrite ?Ef, ?length_insert; exact Hf).
    rewrite Ef. apply prefix_length_insert_mono.
    intros a Ha Hp. rewrite (list_lookup_total_correct _ _ _ Ha).
    now apply fully_set_after_SetXY.
  - intros index z c e s' E.
    destruct (SetZBedProbePoint_Some _ _ _ _ _ _ Hf E) as (Hi & _ & _ & _ & Ef & _).
    rewrite !NumberOfProbePoints_prefix_length by (rewrite ?Ef, ?length_insert; exact Hf).
    rewrite Ef. apply prefix_length_insert_mono.
    intros a Ha Hp. rewrite (list_lookup_total_correct _ _ _ Ha), fully_set_after_SetZ.
    unfold fully_set in Hp. rewrite has_xySet in Hp.
    now apply andb_true_iff in Hp as [-> _].
Qed.

(** X8: when the first record that is not fully set already has its
    coordinates, [SetZBedProbePoint] on it raises [NumberOfProbePoints] by at
    least one. *)
Theorem SetZBedProbePoint_completes_next_point z wasXyCorrected wasError s s' :
  wf s ->
  (NumberOfProbePoints s < MaxProbePoints)%nat ->
  has_flag (probePointSet s !!! NumberOfProbePoints s) xySet = true ->
  SetZBedProbePoint (NumberOfProbePoints s) z wasXyCorrected wasError s = Some s' ->
  (S (NumberOfProbePoints s) <= NumberOfProbePoints s')%nat.
Proof.
  intros (_ & _ & _ & _ & Hf & _) Hn Hxy E.
  destruct (SetZBedProbePoint_Some _ _ _ _ _ _ Hf E) as (Hi & _ & _ & _ & Ef & _).
  rewrite (NumberOfProbePoints_prefix_length s') by (rewrite Ef, length_insert; exact Hf).
  rewrite Ef. rewrite NumberOfProbePoints_prefix_length in * by exact Hf.
  apply prefix_length_insert_at; [lia|].
  rewrite fully_set_after_SetZ. now rewrite <- has_xySet.
Qed.

(** X9: recording point [index] (coordinates, then height) makes it a valid
    record exactly when [wasError] is false, so afterwards
    [GoodProbePoints (index + 1)] holds exactly when [GoodProbePoints index]
    held before and the probe reported no error. *)
Theorem record_point_GoodProbePoints index x y z wasXyCorrected wasError s s' :
  wf s ->
  record_point index x y z wasXyCorrected wasError s = Some s' ->
  valid_record (probePointSet s' !!! index) = negb wasError /\
  GoodProbePoints (S index) s' = GoodProbePoints index s && negb wasError.
Proof.
  intros Hwf E. unfold record_point in E.
  destruct (SetXYBedProbePoint index x y s) as [s1|] eqn:E1; [|discriminate].
  cbn [mbind option_bind] in E.
  pose proof (SetXYBedProbePoint_wf _ _ _ _ _ Hwf E1) as Hwf1.
  destruct (SetXYBedProbePoint_Some _ _ _ _ _ E1) as (Hi & _ & _ & _ & Ef1 & _).
  destruct Hwf as (_ & _ & _ & _ & Hf & _).
  destruct Hwf1 as (_ & _ & _ & _ & Hf1 & _).
  destruct (SetZBedProbePoint_Some _ _ _ _ _ _ Hf1 E) as (_ & _ & _ & _ & Ef2 & _).
  assert (Hv : valid_record (probePointSet s' !!! index) = negb wasError).
  { rewrite Ef2, list_lookup_total_insert_eq by lia.
    rewrite valid_record_after_SetZ, Ef1, list_lookup_total_insert_eq by lia.
    change xySet with (2 ^ 0). rewrite testbit_set_flag by lia.
    cbv beta iota delta [Z.eqb Pos.eqb]. now rewrite orb_true_r. }
  split; [exact Hv|].
  unfold GoodProbePoints. rewrite !GoodProbePoints_from_forallb.
  rewrite seq_S, forallb_app. simpl. rewrite Hv, andb_true_r. f_equal.
  apply forallb_ext_on. intros j Hj%in_seq.
  rewrite Ef2, Ef1, !list_lookup_total_insert_ne by lia. reflexivity.
Qed.

(** ** Clearing twice *)

Lemma store_eq (s s' : RandomProbePointSet) :
  xBedProbePoints s' = xBedProbePoints s ->
  yBedProbePoints s' = yBedProbePoints s ->
  zBedProbePoints s' = zBedProbePoints s ->
  probePointSet s' = probePointSet s ->
  same_model s s' ->
  s' = s.
Proof.
  destruct s, s'. unfold same_model. simpl.
  intros -> -> -> -> (-> & -> & -> & -> & -> & ->). reflexivity.
Qed.

(** X10: [ClearProbeHeights] is idempotent, and after it [GoodProbePoints]
    fails for every positive count. *)
Theorem ClearProbeHeights_idempotent s :
  wf s ->
  ClearProbeHeights (ClearProbeHeights s) = ClearProbeHeights s /\
  (forall n, (1 <= n)%nat -> GoodProbePoints n (ClearProbeHeights s) = false).
Proof.
  intros Hwf. pose proof (ClearProbeHeights_wf s Hwf) as Hwf'.
  pose proof (ClearProbeHeights_statuses s Hwf) as Ef.
  pose proof (ClearProbeHeights_statuses _ Hwf') as Ef'.
  destruct (ClearProbeHeights_arrays _ Hwf') as (Ex' & Ey' & Ez' & Hm').
  split.
  - apply store_eq; try assumption.
    rewrite Ef', Ef, <- list_fmap_compose. apply list_fmap_ext.
    intros i f _. simpl. now rewrite <- Z.land_assoc, Z.land_diag.
  - intros [|n] Hn; [lia|]. unfold GoodProbePoints. simpl.
    destruct Hwf as (Hcap & _ & _ & _ & Hf & _).
    unfold flags_differ. rewrite <- valid_record_mask, Ef.
    rewrite (list_lookup_total_fmap _ (probePointSet s) 0%nat) by lia.
    unfold valid_record, fully_set. rewrite has_zSet, Z.land_spec.
    change zSet with (2 ^ 1). rewrite Z.lnot_spec, Z.pow2_bits_eqb by lia.
    cbv beta iota delta [Z.eqb Pos.eqb negb].
    now rewrite !andb_false_r.
Qed.

(** ** More on fitting *)


(** X11: a successful [SetProbedBedEquation] changes no probe point record,
    sends the deprecation warning, and its reply lists the [numPoints] stored
    points; a 3-point fit leaves [xRectangle] and [yRectangle] as they were and
    a 4-point fit leaves [aX], [aY] and [aC] as they were. *)
Theorem SetProbedBedEquation_success_frame numPoints s :
  wf s ->
  fit_error (SetProbedBedEquation numPoints s) = false ->
  let r := SetProbedBedEquation numPoints s in
  xBedProbePoints (fit_store r) = xBedProbePoints s /\
  yBedProbePoints (fit_store r) = yBedProbePoints s /\
  zBedProbePoints (fit_store r) = zBedProbePoints s /\
  probePointSet (fit_store r) = probePointSet s /\
  fit_warning r = true /\
  fit_reply r = BedEquationFitsReply (fitted_points numPoints s) /\
  length (fitted_points numPoints s) = numPoints /\
  (numPoints = 3%nat ->
   xRectangle (fit_store r) = xRectangle s /\ yRectangle (fit_store r) = yRectangle s) /\
  (numPoints = 4%nat ->
   aX (fit_store r) = aX s /\ aY (fit_store r) = aY s /\ aC (fit_store r) = aC s).
Proof.
  intros _ Herr. cbv zeta.
  destruct (SetProbedBedEquation_arrays numPoints s) as (Ex & Ey & Ez & Ef).
  repeat (split; [assumption|]).
  assert (Hlen : length (fitted_points numPoints s) = numPoints)
    by (unfold fitted_points; now rewrite length_fmap, length_seq).
  revert Herr. unfold SetProbedBedEquation.
  destruct (GoodProbePointOrdering numPoints s); simpl; [|discriminate].
  destruct numPoints as [|[|[|[|[|n]]]]]; simpl; try discriminate; intros _;
    (split; [reflexivity|]); (split; [reflexivity|]); (split; [exact Hlen|]);
    split; intros; try discriminate; auto.
Qed.


(** X13: the ordering check looks at the first four points only and accepts
    every prefix of an accepted set: from 4 points on the answer is that for 4
    points, and if [m] points are in order then so are any fewer. *)
Theorem GoodProbePointOrdering_prefix m n s :
  wf s ->
  ((4 <= n)%nat -> GoodProbePointOrdering n s = GoodProbePointOrdering 4 s) /\
  ((n <= m)%nat -> GoodProbePointOrdering m s = true ->
   GoodProbePointOrdering n s = true).
Proof.
  intros _. split.
  - intros Hn. unfold GoodProbePointOrdering.
    rewrite !(proj2 (Nat.leb_le _ n)) by lia. reflexivity.
  - intros Hnm Hm. apply GoodProbePointOrdering_rejections.
    apply GoodProbePointOrdering_rejections in Hm as (A & B & C & D).
    repeat split; intros Hk; [apply A|apply B|apply C|apply D]; lia.
Qed.

Lemma SetProbedBedEquation_with_flags numPoints flags s :
  let r := SetProbedBedEquation numPoints s in
  let r' := SetProbedBedEquation numPoints (with_flags flags s) in
  fit_error r' = fit_error r /\ fit_reply r' = fit_reply r /\
  fit_warning r' = fit_warning r /\
  same_model (fit_store r) (fit_store r').
Proof.
  cbv zeta. unfold SetProbedBedEquation.
  change (GoodProbePointOrdering numPoints (with_flags flags s))
    with (GoodProbePointOrdering numPoints s).
  destruct (GoodProbePointOrdering numPoints s); simpl.
  - destruct numPoints as [|[|[|[|[|n]]]]]; simpl; unfold same_model; simpl;
      repeat split; reflexivity.
  - unfold same_model. simpl. repeat split; reflexivity.
Qed.

(** X14: [SetProbedBedEquation] never looks at the status flags: right after
    [ClearProbeHeights] it returns the same result, writes the same reply and
    leaves the same model as it would have without the clearing. *)
Theorem SetProbedBedEquation_after_ClearProbeHeights numPoints s :
  wf s ->
  let r := SetProbedBedEquation numPoints s in
  let r' := SetProbedBedEquation numPoints (ClearProbeHeights s) in
  fit_error r' = fit_error r /\ fit_reply r' = fit_reply r /\
  fit_warning r' = fit_warning r /\
  same_model (fit_store r) (fit_store r').
Proof.
  intros Hwf.
  destruct (ClearProbeHeights_arrays s Hwf) as (Ex & Ey & Ez & Hm).
  assert (E : ClearProbeHeights s = with_flags (probePointSet (ClearProbeHeights s)) s).
  { destruct Hm as (A & B & C & D & F & G).
    apply store_eq; unfold same_model; simpl; repeat split; assumption || reflexivity. }
  rewrite E. apply SetProbedBedEquation_with_flags.
Qed.

(** ** What a height query reads *)

Lemma height_case_bilinear n : height_case n = CaseBilinear -> n = 4%nat.
Proof. destruct n as [|[|[|[|[|n]]]]]; simpl; congruence. Qed.

Lemma GetInterpolatedHeightError_ext s s' x y :
  same_model s s' ->
  (numBedCompensationPoints s = 4%nat ->
   xBedProbePoints s' !!! 0%nat = xBedProbePoints s !!! 0%nat /\
   yBedProbePoints s' !!! 0%nat = yBedProbePoints s !!! 0%nat /\
   forall i, (i < 4)%nat -> zBedProbePoints s' !!! i = zBedProbePoints s !!! i) ->
  GetInterpolatedHeightError x y s' = GetInterpolatedHeightError x y s.
Proof.
  intros (En & Ea & Eb & Ec & Exr & Eyr) Hpts.
  unfold GetInterpolatedHeightError. rewrite En.
  destruct (height_case (numBedCompensationPoints s)) eqn:Hc.
  - reflexivity.
  - now rewrite Ea, Eb, Ec.
  - destruct (Hpts (height_case_bilinear _ Hc)) as (Ex & Ey & Ez).
    unfold SecondDegreeTransformZ.
    rewrite Ex, Ey, Exr, Eyr, !Ez by lia. reflexivity.
Qed.

(** X15: [ClearProbeHeights] changes no height error.  A setter changes none
    either unless the model is the 4-point one and it writes a value the
    query reads: [SetXYBedProbePoint] on record 0, [SetZBedProbePoint] on a
    record below 4. *)
Theorem GetInterpolatedHeightError_kept s :
  wf s ->
  (forall x y,
     GetInterpolatedHeightError x y (ClearProbeHeights s)
     = GetInterpolatedHeightError x y s) /\
  (forall index px py s',
     SetXYBedProbePoint index px py s = Some s' ->
     numBedCompensationPoints s <> 4%nat \/ index <> 0%nat ->
     forall x y, GetInterpolatedHeightError x y s' = GetInterpolatedHeightError x y s) /\
  (forall index z wasXyCorrected wasError s',
     SetZBedProbePoint index z wasXyCorrected wasError s = Some s' ->
     numBedCompensationPoints s <> 4%nat \/ (4 <= index)%nat ->
     forall x y, GetInterpolatedHeightError x y s' = GetInterpolatedHeightError x y s).
Proof.
  intros Hwf. split; [|split].
  - intros x y. destruct (ClearProbeHeights_arrays s Hwf) as (Ex & Ey & Ez & Hm).
    apply GetInterpolatedHeightError_ext; [exact Hm|].
    intros _. now rewrite Ex, Ey, Ez.
  - intros index px py s' E Hcond x y.
    destruct (SetXYBedProbePoint_Some _ _ _ _ _ E) as (_ & Ex & Ey & Ez & _ & Hm).
    apply GetInterpolatedHeightError_ext; [exact Hm|].
    intros H4. destruct Hcond as [Hc|Hc]; [contradiction|].
    rewrite Ex, Ey, Ez, !list_lookup_total_insert_ne by exact Hc. auto.
  - intros index z c e s' E Hcond x y.
    destruct Hwf as (_ & _ & _ & _ & Hf & _).
    destruct (SetZBedProbePoint_Some _ _ _ _ _ _ Hf E) as (_ & Ex & Ey & Ez & _ & Hm).
    apply GetInterpolatedHeightError_ext; [exact Hm|].
    intros H4. destruct Hcond as [Hc|Hc]; [contradiction|].
    rewrite Ex, Ey, Ez. repeat split.
    intros i Hi. apply list_lookup_total_insert_ne. lia.
Qed.

Lemma div_by_zero_not_finite (a c : spec_float) :
  float_is_zero c = true -> float_is_finite (F32.div a c) = false.
Proof. destruct c; try discriminate. intros _. destruct a; reflexivity. Qed.

(** X16: the plane fit does not guard its division: when three points pass the
    ordering check but the divisor [c] comes out as zero, the fit still
    succeeds and each of [aX], [aY], [aC] is an infinity or a NaN. *)
Theorem SetProbedBedEquation_degenerate_plane s :
  wf s ->
  GoodProbePointOrdering 3 s = true ->
  float_is_zero (plane_divisor s) = true ->
  fit_error (SetProbedBedEquation 3 s) = false /\
  numBedCompensationPoints (fit_store (SetProbedBedEquation 3 s)) = 3%nat /\
  float_is_finite (aX (fit_store (SetProbedBedEquation 3 s))) = false /\
  float_is_finite (aY (fit_store (SetProbedBedEquation 3 s))) = false /\
  float_is_finite (aC (fit_store (SetProbedBedEquation 3 s))) = false.
Proof.
  intros _ G Hc.
  assert (E : exists a b d,
             fit_coefficients 3 s
             = Some (with_plane (F32.div a (plane_divisor s)) (F32.div b (plane_divisor s))
                       (F32.div d (plane_divisor s)) s))
    by (eexists _, _, _; reflexivity).
  destruct E as (a & b & d & E).
  unfold SetProbedBedEquation. rewrite G, E.
  cbn [negb fit_error fit_store with_num with_plane numBedCompensationPoints aX aY aC].
  repeat split; try reflexivity; apply div_by_zero_not_finite; exact Hc.
Qed.

(** ** The two reports *)

Lemma length_all_heights numPoints s : length (all_heights numPoints s) = numPoints.
Proof. unfold all_heights. now rewrite length_fmap, length_seq. Qed.


Lemma valid_heights_all numPoints s :
  GoodProbePoints numPoints s = true ->
  valid_heights numPoints s = all_heights numPoints s.
Proof.
  unfold GoodProbePoints. rewrite GoodProbePoints_from_forallb.
  unfold valid_heights, all_heights. generalize (seq 0 numPoints). intros l.
  induction l as [|i l IH]; csimpl; [reflexivity|].
  intros [Hi Hl]%andb_true_iff. rewrite Hi. csimpl. now rewrite IH.
Qed.

Lemma report_entries_lookup numPoints s i :
  (i < numPoints)%nat ->
  report_entries (ReportProbeHeights numPoints s) !! i = Some (height_entry s i).
Proof.
  intros Hi. rewrite ReportProbeHeights_divides_by_numPoints. simpl.
  rewrite list_lookup_fmap, lookup_seq_lt by exact Hi. reflexivity.
Qed.

(** X17: when [GoodProbePoints numPoints] holds, [ReportProbeHeights numPoints]
    prints the height of each of the first [numPoints] records and reports
    the mean and the population standard deviation of exactly those heights. *)
Theorem ReportProbeHeights_after_GoodProbePoints numPoints s :
  wf s -> (numPoints <= MaxProbePoints)%nat ->
  GoodProbePoints numPoints s = true ->
  report_entries (ReportProbeHeights numPoints s)
  = HeightValue <$> all_heights numPoints s /\
  report_mean (ReportProbeHeights numPoints s) = mean_of (all_heights numPoints s) /\
  report_deviation (ReportProbeHeights numPoints s)
  = deviation_of (all_heights numPoints s).
Proof.
  intros _ _ Hgood.
  pose proof (valid_heights_all numPoints s Hgood) as Ev.
  split.
  - rewrite ReportProbeHeights_divides_by_numPoints. simpl.
    unfold all_heights. rewrite <- list_fmap_compose. apply list_fmap_ext.
    intros k i Hk. apply lookup_seq in Hk as [-> Hk]. simpl.
    pose proof (proj1 (GoodProbePoints_forall numPoints s) Hgood k Hk) as Hv.
    unfold height_entry. unfold valid_record in Hv.
    apply andb_true_iff in Hv as [-> ->%negb_true_iff]. reflexivity.
  - rewrite <- Ev. apply ReportProbeHeights_all_valid.
    rewrite Ev. apply length_all_heights.
Qed.


(** X19: [ReportProbeHeights numPoints] prints one item per record, in index
    order: "not set" when the record lacks [xySet] or [zSet], whatever its
    [probeError] flag; otherwise "probing failed" when it has [probeError];
    otherwise its height. *)
Theorem ReportProbeHeights_entries numPoints s :
  wf s -> (numPoints <= MaxProbePoints)%nat ->
  length (report_entries (ReportProbeHeights numPoints s)) = numPoints /\
  forall i, (i < numPoints)%nat ->
    (fully_set (probePointSet s !!! i) = false ->
     report_entries (ReportProbeHeights numPoints s) !! i = Some NotSetEntry) /\
    (fully_set (probePointSet s !!! i) = true ->
     has_flag (probePointSet s !!! i) probeError = true ->
     report_entries (ReportProbeHeights numPoints s) !! i = Some ProbingFailedEntry) /\
    (fully_set (probePointSet s !!! i) = true ->
     has_flag (probePointSet s !!! i) probeError = false ->
     report_entries (ReportProbeHeights numPoints s) !! i
     = Some (HeightValue (zBedProbePoints s !!! i))).
Proof.
  intros _ _. split.
  - rewrite ReportProbeHeights_divides_by_numPoints. simpl.
    now rewrite length_fmap, length_seq.
  - intros i Hi. rewrite (report_entries_lookup numPoints s i Hi). unfold height_entry.
    repeat split; intros; repeat match goal with H : _ = _ |- _ => rewrite H end;
      reflexivity.
Qed.

(** X20: with a count of 0 both reports print no height and divide 0.0 by 0:
    the mean they report is a NaN. *)
Theorem reports_of_no_points s :
  report_entries (ReportProbeHeights 0 s) = [] /\
  report_mean (ReportProbeHeights 0 s) = S754_nan /\
  debug_heights (DebugPrint 0 s) = [] /\
  debug_mean (DebugPrint 0 s) = S754_nan /\
  debug_deviation (DebugPrint 0 s) = S754_nan.
Proof. repeat split; reflexivity. Qed.

(** ** Writing a record again *)

Lemma to_uint8_high_bits (v n : Z) : 8 <= n -> Z.testbit (to_uint8 v) n = false.
Proof. intros Hn. apply byte_high_bits; [apply to_uint8_range|exact Hn]. Qed.

Lemma status_after_SetZ_testbit wasXyCorrected wasError f n :
  0 <= n < 8 ->
  Z.testbit (status_after_SetZ wasXyCorrected wasError f) n
  = if 1 =? n then true
    else if 2 =? n then wasXyCorrected
    else if 3 =? n then wasError
    else Z.testbit f n.
Proof.
  intros Hn. unfold status_after_SetZ.
  change zSet with (2 ^ 1). change xyCorrected with (2 ^ 2). change probeError with (2 ^ 3).
  destruct wasXyCorrected, wasError;
    repeat first [rewrite testbit_set_flag by lia | rewrite testbit_clear_flag by lia];
    destruct (Z.eqb_spec 1 n), (Z.eqb_spec 2 n), (Z.eqb_spec 3 n); try lia;
    destruct (Z.testbit f n); reflexivity.
Qed.

Lemma status_after_SetZ_twice c0 e0 c e f :
  status_after_SetZ c e (status_after_SetZ c0 e0 f) = status_after_SetZ c e f.
Proof.
  apply Z.bits_inj'. intros n Hn.
  destruct (Z_lt_le_dec n 8) as [Hlt|Hge].
  - rewrite !status_after_SetZ_testbit by lia.
    destruct (1 =? n), (2 =? n), (3 =? n); reflexivity.
  - rewrite !(byte_high_bits _ n) by (exact Hge || apply status_after_SetZ_range).
    reflexivity.
Qed.

Lemma status_after_SetXY_twice f :
  to_uint8 (Z.lor (to_uint8 (Z.lor f xySet)) xySet) = to_uint8 (Z.lor f xySet).
Proof.
  apply Z.bits_inj'. intros n Hn.
  destruct (Z_lt_le_dec n 8) as [Hlt|Hge].
  - change xySet with (2 ^ 0). rewrite !testbit_set_flag by lia.
    now rewrite <- orb_assoc, orb_diag.
  - now rewrite !to_uint8_high_bits.
Qed.

(** X21: the last write to a record wins, and nothing of the earlier write is
    left: calling a setter on a record that the same setter has just written
    gives the very object that the second call alone would have given. *)
Theorem setters_last_write_wins s :
  wf s ->
  (forall index x0 y0 x y s1,
     SetXYBedProbePoint index x0 y0 s = Some s1 ->
     SetXYBedProbePoint index x y s1 = SetXYBedProbePoint index x y s) /\
  (forall index z0 c0 e0 z wasXyCorrected wasError s1,
     SetZBedProbePoint index z0 c0 e0 s = Some s1 ->
     SetZBedProbePoint index z wasXyCorrected wasError s1
     = SetZBedProbePoint index z wasXyCorrected wasError s).
Proof.
  intros Hwf. pose proof Hwf as (_ & Hx & Hy & Hz & Hf & _). split.
  - intros index x0 y0 x y s1 E1.
    destruct (SetXYBedProbePoint_Some _ _ _ _ _ E1) as (Hi & X1 & Y1 & Z1 & F1 & M1).
    destruct (SetXYBedProbePoint_in_range index x y s1 Hi) as (s2 & E2 & _).
    destruct (SetXYBedProbePoint_in_range index x y s Hi) as (s3 & E3 & _).
    rewrite E2, E3. f_equal.
    destruct (SetXYBedProbePoint_Some _ _ _ _ _ E2) as (_ & X2 & Y2 & Z2 & F2 & M2).
    destruct (SetXYBedProbePoint_Some _ _ _ _ _ E3) as (_ & X3 & Y3 & Z3 & F3 & M3).
    apply store_eq.
    + now rewrite X2, X1, X3, list_insert_insert_eq.
    + now rewrite Y2, Y1, Y3, list_insert_insert_eq.
    + now rewrite Z2, Z1, Z3.
    + rewrite F2, F1, F3, list_lookup_total_insert_eq, list_insert_insert_eq by lia.
      now rewrite status_after_SetXY_twice.
    + destruct M1 as (A1 & B1 & C1 & D1 & G1 & H1), M2 as (A2 & B2 & C2 & D2 & G2 & H2),
        M3 as (A3 & B3 & C3 & D3 & G3 & H3).
      unfold same_model. repeat split; congruence.
  - intros index z0 c0 e0 z c e s1 E1.
    pose proof (SetZBedProbePoint_wf _ _ _ _ _ _ Hwf E1) as (_ & _ & _ & _ & Hf1 & _).
    destruct (SetZBedProbePoint_Some _ _ _ _ _ _ Hf E1) as (Hi & X1 & Y1 & Z1 & F1 & M1).
    destruct (SetZBedProbePoint_in_range index z c e s1 Hi Hf1) as (s2 & E2 & _).
    destruct (SetZBedProbePoint_in_range index z c e s Hi Hf) as (s3 & E3 & _).
    rewrite E2, E3. f_equal.
    destruct (SetZBedProbePoint_Some _ _ _ _ _ _ Hf1 E2) as (_ & X2 & Y2 & Z2 & F2 & M2).
    destruct (SetZBedProbePoint_Some _ _ _ _ _ _ Hf E3) as (_ & X3 & Y3 & Z3 & F3 & M3).
    apply store_eq.
    + now rewrite X2, X1, X3.
    + now rewrite Y2, Y1, Y3.
    + now rewrite Z2, Z1, Z3, list_insert_insert_eq.
    + rewrite F2, F1, F3, list_lookup_total_insert_eq, list_insert_insert_eq by lia.
      now rewrite status_after_SetZ_twice.
    + destruct M1 as (A1 & B1 & C1 & D1 & G1 & H1), M2 as (A2 & B2 & C2 & D2 & G2 & H2),
        M3 as (A3 & B3 & C3 & D3 & G3 & H3).
      unfold same_model. repeat split; congruence.
Qed.


End ProbePointSet.

(** ** The example objects *)

Ltac wf_by_computation :=
  unfold wf; cbn; repeat split; try reflexivity; try lia;
  repeat (constructor; [cbv [unset xySet zSet xyCorrected probeError]; lia|]); constructor.

Lemma blank_store_constructed : construct 4 blank_store = blank_store.
Proof. reflexivity. Qed.

Lemma blank_store_wf : wf 4 blank_store.
Proof. wf_by_computation. Qed.

Lemma blank_store_reachable : reachable 4 blank_store.
Proof. rewrite <- blank_store_constructed. apply reach_construct, blank_store_wf. Qed.

Lemma nan_store_reachable : reachable 4 nan_store.
Proof.
  apply (reach_SetXY 4 blank_store 1 F32.zero S754_nan); [apply blank_store_reachable|].
  reflexivity.
Qed.

Lemma heights_store_recorded :
  (s1 ← record_point 4 0 (F32.of_Z 0) (F32.of_Z 0) (F32.of_Z 1) false false blank_store;
   s2 ← record_point 4 1 (F32.of_Z 0) (F32.of_Z 1) (F32.of_Z 2) false false s1;
   record_point 4 2 (F32.of_Z 1) (F32.of_Z 1) (F32.of_Z 3) false false s2)
  = Some heights_store.
Proof. reflexivity. Qed.

(** The heights 1, 2, 3, all valid: the mean is exactly 2 and the deviation is
    the [float] [m * 2^-24] computed from the rounded [14/3 - 4], two units
    in the last place below the square root of 2/3. *)
Lemma ReportProbeHeights_1_2_3 :
  let m := 13698538 in
  report_mean (ReportProbeHeights 3 heights_store) = F32.of_Z 2 /\
  report_deviation (ReportProbeHeights 3 heights_store) = F32.of_scaled m (-24) /\
  3 * m ^ 2 < 2 * 2 ^ 48 < 3 * (m + 2) ^ 2.
Proof. cbv zeta. split; [reflexivity|]. split; [reflexivity|]. lia. Qed.

(** C5, on the code: with the valid heights 1, 2, 3 in records 0 to 2 and
    record 3 not set, [ReportProbeHeights 4] reports the mean 1.5 and the
    deviation [sqrt 1.25], where the valid heights have mean 2 and a
    deviation below 1. *)
Theorem ReportProbeHeights_counts_unset_records :
  valid_heights 4 heights_store = [F32.of_Z 1; F32.of_Z 2; F32.of_Z 3] /\
  report_entries (ReportProbeHeights 4 heights_store)
  = [HeightValue (F32.of_Z 1); HeightValue (F32.of_Z 2); HeightValue (F32.of_Z 3);
     NotSetEntry] /\
  report_mean (ReportProbeHeights 4 heights_store) = F32.of_scaled 3 (-1) /\
  mean_of (valid_heights 4 heights_store) = F32.of_Z 2 /\
  report_deviation (ReportProbeHeights 4 heights_store) = F32.sqrt (F32.of_scaled 5 (-2)) /\
  F32.ltb (deviation_of (valid_heights 4 heights_store)) (F32.of_Z 1) = true /\
  F32.ltb (F32.of_Z 1) (report_deviation (ReportProbeHeights 4 heights_store)) = true.
Proof. repeat split; reflexivity. Qed.

(** C4 as written fails on a NaN: after [SetXYBedProbePoint(1, 0, NaN)] the
    check for 2 points passes, since [NaN <= 0] is false, although
    [y[1] > y[0]] does not hold. *)
Lemma GoodProbePointOrdering_nan_counterexample :
  ~ (GoodProbePointOrdering 2 nan_store = true <-> ordering_rules 2 nan_store).
Proof.
  intros [H _]. destruct (H eq_refl) as [H2 _].
  specialize (H2 ltac:(lia)). discriminate H2.
Qed.

(** ** Instances of the theorems *)

Lemma plane_fit_at_origin_witness :
  wf 4 blank_store /\
  exists s,
    (s1 ← record_point 4 0 (F32.of_Z 0) (F32.of_Z 0) (F32.of_Z 0) false false blank_store;
     s2 ← record_point 4 1 (F32.of_Z 0) (F32.of_Z 1) (F32.of_Z 2) false false s1;
     record_point 4 2 (F32.of_Z 1) (F32.of_Z 1) (F32.of_Z 4) false false s2) = Some s /\
    fit_error (SetProbedBedEquation 3 s) = false /\
    GetInterpolatedHeightError (F32.of_Z 0) (F32.of_Z 0)
      (fit_store (SetProbedBedEquation 3 s)) = F32.zero.
Proof.
  assert (W : wf 4 blank_store) by wf_by_computation.
  split; [exact W|].
  exact (plane_fit_at_origin 4 blank_store false false false false false false W).
Defined.

Lemma bilinear_fit_on_unit_square_witness :
  wf 4 blank_store /\
  exists s,
    (s1 ← record_point 4 0 (F32.of_Z 0) (F32.of_Z 0) (F32.of_Z 0) false false blank_store;
     s2 ← record_point 4 1 (F32.of_Z 0) (F32.of_Z 1) (F32.of_Z 1) false false s1;
     s3 ← record_point 4 2 (F32.of_Z 1) (F32.of_Z 1) (F32.of_Z 2) false false s2;
     record_point 4 3 (F32.of_Z 1) (F32.of_Z 0) (F32.of_Z 1) false false s3) = Some s /\
    fit_error (SetProbedBedEquation 4 s) = false /\
    GetInterpolatedHeightError (F32.of_scaled 1 (-1)) (F32.of_scaled 1 (-1))
      (fit_store (SetProbedBedEquation 4 s)) = F32.of_Z 1 /\
    GetInterpolatedHeightError (F32.of_Z 0) (F32.of_Z 0)
      (fit_store (SetProbedBedEquation 4 s)) = F32.of_Z 0 /\
    GetInterpolatedHeightError (F32.of_Z 0) (F32.of_Z 1)
      (fit_store (SetProbedBedEquation 4 s)) = F32.of_Z 1 /\
    GetInterpolatedHeightError (F32.of_Z 1) (F32.of_Z 1)
      (fit_store (SetProbedBedEquation 4 s)) = F32.of_Z 2 /\
    GetInterpolatedHeightError (F32.of_Z 1) (F32.of_Z 0)
      (fit_store (SetProbedBedEquation 4 s)) = F32.of_Z 1.
Proof.
  assert (W : wf 4 blank_store) by wf_by_computation.
  split; [exact W|].
  exact (bilinear_fit_on_unit_square 4 blank_store
           false false false false false false false false W).
Defined.

Lemma SetProbedBedEquation_error_leaves_object_witness :
  wf 4 heights_store /\
  fit_error (SetProbedBedEquation 2 heights_store) = true /\
  fit_store (SetProbedBedEquation 2 heights_store) = heights_store.
Proof.
  assert (W : wf 4 heights_store) by wf_by_computation.
  split; [exact W|]. split; [reflexivity|].
  exact (SetProbedBedEquation_error_leaves_object 4 2 heights_store W eq_refl).
Defined.

Lemma GoodProbePointOrdering_rules_witness :
  wf 4 corners_store /\
  compared_not_nan 4 corners_store /\
  (GoodProbePointOrdering 4 corners_store = true <-> ordering_rules 4 corners_store).
Proof.
  assert (W : wf 4 corners_store) by wf_by_computation.
  assert (N : compared_not_nan 4 corners_store)
    by (unfold compared_not_nan; repeat split; reflexivity).
  split; [exact W|]. split; [exact N|].
  exact (GoodProbePointOrdering_rules 4 4 corners_store W N).
Defined.

Lemma NumberOfProbePoints_longest_prefix_witness :
  wf 4 heights_store /\
  NumberOfProbePoints 4 heights_store = prefix_length fully_set (probePointSet heights_store) /\
  (Forall (fun f => fully_set f = true) (probePointSet heights_store) ->
   NumberOfProbePoints 4 heights_store = 4%nat).
Proof.
  assert (W : wf 4 heights_store) by wf_by_computation.
  split; [exact W|].
  exact (NumberOfProbePoints_longest_prefix 4 heights_store W).
Defined.

Lemma SetZBedProbePoint_overwrites_flags_witness :
  wf 4 heights_store /\ (2 < 4)%nat /\
  exists s',
    SetZBedProbePoint 4 2 (F32.of_Z 4) true false heights_store = Some s' /\
    zBedProbePoints s' !!! 2%nat = F32.of_Z 4 /\
    has_flag (probePointSet s' !!! 2%nat) zSet = true /\
    has_flag (probePointSet s' !!! 2%nat) xyCorrected = true /\
    has_flag (probePointSet s' !!! 2%nat) probeError = false.
Proof.
  assert (W : wf 4 heights_store) by wf_by_computation.
  assert (L : (2 < 4)%nat) by lia.
  split; [exact W|]. split; [exact L|].
  exact (SetZBedProbePoint_overwrites_flags 4 2 (F32.of_Z 4) true false heights_store W L).
Defined.

Lemma ClearProbeHeights_clears_only_zSet_witness :
  wf 4 heights_store /\
  probePointSet (ClearProbeHeights 4 heights_store) = [1; 1; 1; 0] /\
  NumberOfProbePoints 4 (ClearProbeHeights 4 heights_store) = 0%nat.
Proof.
  assert (W : wf 4 heights_store) by wf_by_computation.
  split; [exact W|]. split; [reflexivity|].
  exact (proj2 (proj2 (proj2 (proj2 (proj2 (proj2 (proj2 (proj2 (proj2 (proj2
           (ClearProbeHeights_clears_only_zSet 4 heights_store W))))))))))).
Defined.

Lemma numBedCompensationPoints_0_3_4_witness :
  reachable 4 (fit_store (SetProbedBedEquation 3 (construct 4 corners_store))) /\
  numBedCompensationPoints (fit_store (SetProbedBedEquation 3 (construct 4 corners_store)))
  = 3%nat /\
  (numBedCompensationPoints (fit_store (SetProbedBedEquation 3 (construct 4 corners_store)))
   = 0%nat \/
   numBedCompensationPoints (fit_store (SetProbedBedEquation 3 (construct 4 corners_store)))
   = 3%nat \/
   numBedCompensationPoints (fit_store (SetProbedBedEquation 3 (construct 4 corners_store)))
   = 4%nat).
Proof.
  assert (W : wf 4 corners_store) by wf_by_computation.
  assert (R : reachable 4 (fit_store (SetProbedBedEquation 3 (construct 4 corners_store))))
    by (apply reach_Fit, reach_construct; exact W).
  split; [exact R|]. split; [reflexivity|].
  exact (proj1 (proj2 (numBedCompensationPoints_0_3_4 4 _ R))).
Defined.

(** ** Instances of the further theorems *)

Ltac wf_by_evaluation :=
  unfold wf; repeat split; try lia; try (vm_compute; reflexivity);
  match goal with
  | |- Forall ?P ?l => let l' := eval vm_compute in l in change (Forall P l')
  end;
  repeat (constructor; [lia|]); constructor.

Lemma construct_initial_state_witness :
  wf 4 corners_store /\
  NumberOfProbePoints 4 (construct 4 corners_store) = 0%nat /\
  xBedProbePoints (construct 4 corners_store) = xBedProbePoints corners_store /\
  GoodProbePoints 1 (construct 4 corners_store) = false.
Proof.
  assert (W : wf 4 corners_store) by wf_by_computation.
  destruct (construct_initial_state 4 corners_store W)
    as (_ & _ & _ & Ex & _ & _ & En & Hg & _).
  split; [exact W|]. split; [exact En|]. split; [exact Ex|].
  apply Hg. lia.
Defined.

Lemma reachable_wf_witness :
  reachable 4 nan_store /\ wf 4 nan_store.
Proof.
  assert (R : reachable 4 nan_store).
  { apply (reach_SetXY 4 (construct 4 blank_store) 1 F32.zero S754_nan);
      [apply reach_construct; wf_by_computation|reflexivity]. }
  split; [exact R|]. exact (reachable_wf 4 nan_store R).
Defined.

Lemma SetXYBedProbePoint_frame_witness :
  wf 4 heights_store /\
  exists s',
    SetXYBedProbePoint 4 2 (F32.of_Z 5) (F32.of_Z 6) heights_store = Some s' /\
    xBedProbePoints s' !!! 2%nat = F32.of_Z 5 /\
    has_flag (probePointSet s' !!! 2%nat) zSet = has_flag (probePointSet heights_store !!! 2%nat) zSet /\
    zBedProbePoints s' = zBedProbePoints heights_store.
Proof.
  assert (W : wf 4 heights_store) by wf_by_computation.
  split; [exact W|]. eexists. split; [reflexivity|].
  destruct (SetXYBedProbePoint_frame 4 2 (F32.of_Z 5) (F32.of_Z 6) heights_store _ W eq_refl)
    as (Hx & _ & _ & Hz & _ & _ & Ez & _).
  split; [exact Hx|]. split; [exact Hz|exact Ez].
Defined.

Lemma SetZBedProbePoint_frame_witness :
  wf 4 heights_store /\
  exists s',
    SetZBedProbePoint 4 3 (F32.of_Z 7) true true heights_store = Some s' /\
    xBedProbePoints s' = xBedProbePoints heights_store /\
    has_flag (probePointSet s' !!! 3%nat) xySet = false.
Proof.
  assert (W : wf 4 heights_store) by wf_by_computation.
  split; [exact W|]. eexists. split; [reflexivity|].
  destruct (SetZBedProbePoint_frame 4 3 (F32.of_Z 7) true true heights_store _ W eq_refl)
    as (Ex & _ & Hxy & _).
  split; [exact Ex|exact Hxy].
Defined.

Lemma GoodProbePoints_iff_witness :
  wf 4 heights_store /\ (3 <= 4)%nat /\
  (GoodProbePoints 3 heights_store = true <->
   forall i, (i < 3)%nat ->
     has_flag (probePointSet heights_store !!! i) xySet = true /\
     has_flag (probePointSet heights_store !!! i) zSet = true /\
     has_flag (probePointSet heights_store !!! i) probeError = false).
Proof.
  assert (W : wf 4 heights_store) by wf_by_computation.
  assert (L : (3 <= 4)%nat) by lia.
  split; [exact W|]. split; [exact L|].
  exact (proj1 (GoodProbePoints_iff 4 3 heights_store W L)).
Defined.

Lemma GoodProbePoints_le_NumberOfProbePoints_witness :
  wf 4 heights_store /\ (3 <= 4)%nat /\ GoodProbePoints 3 heights_store = true /\
  (3 <= NumberOfProbePoints 4 heights_store)%nat /\
  (NumberOfProbePoints 4 heights_store <= 4)%nat.
Proof.
  assert (W : wf 4 heights_store) by wf_by_computation.
  assert (L : (3 <= 4)%nat) by lia.
  split; [exact W|]. split; [exact L|]. split; [reflexivity|].
  exact (GoodProbePoints_le_NumberOfProbePoints 4 3 heights_store W L eq_refl).
Defined.

Lemma setters_keep_NumberOfProbePoints_witness :
  wf 4 heights_store /\
  exists s',
    SetZBedProbePoint 4 1 (F32.of_Z 9) false true heights_store = Some s' /\
    (NumberOfProbePoints 4 heights_store <= NumberOfProbePoints 4 s')%nat.
Proof.
  assert (W : wf 4 heights_store) by wf_by_computation.
  split; [exact W|]. eexists. split; [reflexivity|].
  exact (proj2 (setters_keep_NumberOfProbePoints 4 heights_store W)
           1%nat (F32.of_Z 9) false true _ eq_refl).
Defined.

Lemma SetZBedProbePoint_completes_next_point_witness :
  wf 4 (ClearProbeHeights 4 heights_store) /\
  (NumberOfProbePoints 4 (ClearProbeHeights 4 heights_store) < 4)%nat /\
  has_flag (probePointSet (ClearProbeHeights 4 heights_store) !!! 0%nat) xySet = true /\
  exists s',
    SetZBedProbePoint 4 0 (F32.of_Z 1) false false (ClearProbeHeights 4 heights_store)
    = Some s' /\
    (1 <= NumberOfProbePoints 4 s')%nat.
Proof.
  assert (W : wf 4 (ClearProbeHeights 4 heights_store)) by wf_by_evaluation.
  assert (L : (NumberOfProbePoints 4 (ClearProbeHeights 4 heights_store) < 4)%nat)
    by (vm_compute; lia).
  split; [exact W|]. split; [exact L|]. split; [reflexivity|].
  eexists. split; [reflexivity|].
  exact (SetZBedProbePoint_completes_next_point 4 (F32.of_Z 1) false false
           (ClearProbeHeights 4 heights_store) _ W L eq_refl eq_refl).
Defined.

Lemma record_point_GoodProbePoints_witness :
  wf 4 heights_store /\
  exists s',
    record_point 4 3 (F32.of_Z 1) (F32.of_Z 0) (F32.of_Z 2) false false heights_store
    = Some s' /\
    GoodProbePoints 4 s' = GoodProbePoints 3 heights_store && negb false.
Proof.
  assert (W : wf 4 heights_store) by wf_by_computation.
  split; [exact W|]. eexists. split; [reflexivity|].
  exact (proj2 (record_point_GoodProbePoints 4 3 (F32.of_Z 1) (F32.of_Z 0) (F32.of_Z 2)
                  false false heights_store _ W eq_refl)).
Defined.

Lemma ClearProbeHeights_idempotent_witness :
  wf 4 heights_store /\
  ClearProbeHeights 4 (ClearProbeHeights 4 heights_store)
  = ClearProbeHeights 4 heights_store.
Proof.
  assert (W : wf 4 heights_store) by wf_by_computation.
  split; [exact W|]. exact (proj1 (ClearProbeHeights_idempotent 4 heights_store W)).
Defined.

Lemma SetProbedBedEquation_success_frame_witness :
  wf 4 heights_store /\
  fit_error (SetProbedBedEquation 3 heights_store) = false /\
  probePointSet (fit_store (SetProbedBedEquation 3 heights_store))
  = probePointSet heights_store /\
  fit_warning (SetProbedBedEquation 3 heights_store) = true.
Proof.
  assert (W : wf 4 heights_store) by wf_by_computation.
  destruct (SetProbedBedEquation_success_frame 4 3 heights_store W eq_refl)
    as (_ & _ & _ & Ef & Hw & _).
  split; [exact W|]. split; [reflexivity|]. split; [exact Ef|exact Hw].
Defined.


Lemma GoodProbePointOrdering_prefix_witness :
  wf 4 corners_store /\ (3 <= 4)%nat /\
  GoodProbePointOrdering 4 corners_store = true /\
  GoodProbePointOrdering 3 corners_store = true.
Proof.
  assert (W : wf 4 corners_store) by wf_by_computation.
  assert (L : (3 <= 4)%nat) by lia.
  split; [exact W|]. split; [exact L|]. split; [reflexivity|].
  exact (proj2 (GoodProbePointOrdering_prefix 4 4 3 corners_store W) L eq_refl).
Defined.

Lemma SetProbedBedEquation_after_ClearProbeHeights_witness :
  wf 4 heights_store /\
  fit_error (SetProbedBedEquation 3 (ClearProbeHeights 4 heights_store))
  = fit_error (SetProbedBedEquation 3 heights_store).
Proof.
  assert (W : wf 4 heights_store) by wf_by_computation.
  split; [exact W|].
  exact (proj1 (SetProbedBedEquation_after_ClearProbeHeights 4 3 heights_store W)).
Defined.

Lemma GetInterpolatedHeightError_kept_witness :
  wf 4 (fit_store (SetProbedBedEquation 3 heights_store)) /\
  GetInterpolatedHeightError (F32.of_Z 1) (F32.of_Z 1)
    (ClearProbeHeights 4 (fit_store (SetProbedBedEquation 3 heights_store)))
  = GetInterpolatedHeightError (F32.of_Z 1) (F32.of_Z 1)
      (fit_store (SetProbedBedEquation 3 heights_store)).
Proof.
  assert (W : wf 4 (fit_store (SetProbedBedEquation 3 heights_store)))
    by wf_by_evaluation.
  split; [exact W|].
  exact (proj1 (GetInterpolatedHeightError_kept 4 _ W) (F32.of_Z 1) (F32.of_Z 1)).
Defined.

Lemma SetProbedBedEquation_degenerate_plane_witness :
  wf 4 diagonal_store /\
  GoodProbePointOrdering 3 diagonal_store = true /\
  float_is_zero (plane_divisor diagonal_store) = true /\
  fit_error (SetProbedBedEquation 3 diagonal_store) = false /\
  float_is_finite (aX (fit_store (SetProbedBedEquation 3 diagonal_store))) = false.
Proof.
  assert (W : wf 4 diagonal_store) by wf_by_computation.
  destruct (SetProbedBedEquation_degenerate_plane 4 diagonal_store W eq_refl eq_refl)
    as (He & _ & Ha & _).
  split; [exact W|]. split; [reflexivity|]. split; [reflexivity|].
  split; [exact He|exact Ha].
Defined.

Lemma ReportProbeHeights_after_GoodProbePoints_witness :
  wf 4 heights_store /\ (3 <= 4)%nat /\ GoodProbePoints 3 heights_store = true /\
  report_mean (ReportProbeHeights 3 heights_store) = mean_of (all_heights 3 heights_store).
Proof.
  assert (W : wf 4 heights_store) by wf_by_computation.
  assert (L : (3 <= 4)%nat) by lia.
  split; [exact W|]. split; [exact L|]. split; [reflexivity|].
  exact (proj1 (proj2 (ReportProbeHeights_after_GoodProbePoints 4 3 heights_store
                         W L eq_refl))).
Defined.


Lemma ReportProbeHeights_entries_witness :
  wf 4 heights_store /\ (4 <= 4)%nat /\
  length (report_entries (ReportProbeHeights 4 heights_store)) = 4%nat.
Proof.
  assert (W : wf 4 heights_store) by wf_by_computation.
  assert (L : (4 <= 4)%nat) by lia.
  split; [exact W|]. split; [exact L|].
  exact (proj1 (ReportProbeHeights_entries 4 4 heights_store W L)).
Defined.

Lemma setters_last_write_wins_witness :
  wf 4 heights_store /\
  exists s1,
    SetZBedProbePoint 4 2 (F32.of_Z 8) true true heights_store = Some s1 /\
    SetZBedProbePoint 4 2 (F32.of_Z 3) false false s1
    = SetZBedProbePoint 4 2 (F32.of_Z 3) false false heights_store.
Proof.
  assert (W : wf 4 heights_store) by wf_by_computation.
  split; [exact W|]. eexists. split; [reflexivity|].
  exact (proj2 (setters_last_write_wins 4 heights_store W)
           2%nat (F32.of_Z 8) true true (F32.of_Z 3) false false _ eq_refl).
Defined.

